(** * ThreatScope AI: the content dispatcher, the response binder and the
      view-state transitions of [index.tsx], as a shallow embedding.

    The dashboard is a React page.  Each component keeps its state in
    [useState] cells and changes it through the setters; the setters are
    modelled as functions on a record of the cells, composed in the order
    the source calls them.  What a handler does to the outside (a request
    sent, a line written to the console) is recorded in a trace next to the
    state.  An asynchronous handler is split where it awaits: the part that
    runs before the request is sent, and the part that runs once the
    request has settled.

    JavaScript strings are modelled as [string]; the operations the source
    uses on them ([endsWith], [split(",")], [===], truthiness) are written
    out below.  Values produced by [JSON.parse] are modelled by [json]. *)

From Stdlib Require Import Bool Arith NArith ZArith QArith Lia List.
From Stdlib Require Import Ascii String DecimalString.
Import ListNotations.

Close Scope Q_scope.
Local Open Scope string_scope.
Local Open Scope list_scope.

Set Warnings "-register-all".

(* ================================================================== *)
(** ** JavaScript values and string operations *)

Module JS.

(** [!s] for a string: only the empty string is falsy. *)
Definition truthy_string (s : string) : bool :=
  negb (s =? "")%string.

(** [s || d] on strings. *)
Definition or_else (s d : string) : string :=
  if truthy_string s then s else d.

(** Truthiness of a cell typed [string | null]: [null] (here [None]) and
    the empty string are falsy. *)
Definition truthy_nullable (s : option string) : bool :=
  match s with
  | Some v => truthy_string v
  | None => false
  end.

(** [s.endsWith(suffix)]: the last [length suffix] characters of [s] are
    compared with [suffix]; a suffix longer than [s] never matches. *)
Definition endsWith (s suffix : string) : bool :=
  let len := String.length s in
  let searchLength := String.length suffix in
  if (searchLength <=? len)%nat
  then (substring (len - searchLength) searchLength s =? suffix)%string
  else false.

(** [s.split(sep)] for a one-character separator: the pieces of [s]
    between the occurrences of [sep], in order; never the empty list. *)
Fixpoint split (sep : ascii) (s : string) : list string :=
  match s with
  | EmptyString => [EmptyString]
  | String c rest =>
      if Ascii.eqb c sep
      then EmptyString :: split sep rest
      else match split sep rest with
           | piece :: pieces => String c piece :: pieces
           | [] => [String c EmptyString]
           end
  end.

(** [xs[i]]: [undefined] (here [None]) out of range. *)
Definition index {A : Type} (xs : list A) (i : nat) : option A :=
  nth_error xs i.

(** No occurrence of the character [c] in [s]. *)
Fixpoint free_of (c : ascii) (s : string) : bool :=
  match s with
  | EmptyString => true
  | String d rest => negb (Ascii.eqb d c) && free_of c rest
  end.

(** What [JSON.parse] and [Response.json] produce.  A number carries the
    value it has been read as; an object lists its properties in
    insertion order. *)
Inductive json : Type :=
| JNull
| JBool (b : bool)
| JNum (q : Q)
| JStr (s : string)
| JArr (items : list json)
| JObj (props : list (string * json)).

(** A JavaScript value as an expression may yield it: a [json] value or
    [undefined]. *)
Definition value := option json.

Fixpoint assoc (key : string) (props : list (string * json)) : value :=
  match props with
  | [] => None
  | (k, v) :: rest => if (k =? key)%string then Some v else assoc key rest
  end.

(** The outcome of evaluating an expression: a value, or an exception. *)
Inductive completion (A : Type) : Type :=
| Normal (a : A)
| Throw (message : string).
Arguments Normal {A} a.
Arguments Throw {A} message.

(** [v.key] on a value that is not [null]: an own property of an
    object; [undefined] on the other values (none of the keys read by
    the source is a built-in property of a string, an array, a number or
    a boolean). *)
Definition member (v : json) (key : string) : value :=
  match v with
  | JObj props => assoc key props
  | _ => None
  end.

(** [v.key]: a [TypeError] on [null]. *)
Definition get_prop (v : json) (key : string) : completion value :=
  match v with
  | JNull => Throw "TypeError"
  | _ => Normal (member v key)
  end.

(** Truthiness: [undefined], [null], [false], [0] and [""] are falsy. *)
Definition truthy (v : value) : bool :=
  match v with
  | None => false
  | Some JNull => false
  | Some (JBool b) => b
  | Some (JNum q) => negb (Qnum q =? 0)%Z
  | Some (JStr s) => truthy_string s
  | Some (JArr _) => true
  | Some (JObj _) => true
  end.

(** [v === 0]: the number zero. *)
Definition isZero (v : value) : bool :=
  match v with
  | Some (JNum q) => (Qnum q =? 0)%Z
  | _ => false
  end.

(** A state cell typed [T | null] that is assigned a parsed value: the
    parsed [null] is the cell's [null]. *)
Definition nullable (v : json) : option json :=
  match v with
  | JNull => None
  | _ => Some v
  end.

End JS.

(* ================================================================== *)
(** ** Base64, as the host's [FileReader.readAsDataURL] encodes a file *)

Module Base64.

Definition alphabet : string :=
  "ABCDEFGHIJKLMNOPQRSTUVWXYZabcdefghijklmnopqrstuvwxyz0123456789+/".

Definition pad : ascii := "="%char.

(** The character of a six-bit group. *)
Definition digit (n : N) : ascii :=
  match String.get (N.to_nat n) alphabet with
  | Some c => c
  | None => pad
  end.

Definition sextet0 (a : N) : N := N.shiftr a 2.
Definition sextet1 (a b : N) : N :=
  N.lor (N.shiftl (N.land a 3) 4) (N.shiftr b 4).
Definition sextet2 (b c : N) : N :=
  N.lor (N.shiftl (N.land b 15) 2) (N.shiftr c 6).
Definition sextet3 (c : N) : N := N.land c 63.

(** Three bytes give four characters; a last group of one or two bytes
    is padded with [=]. *)
Fixpoint encode (bytes : string) : string :=
  match bytes with
  | EmptyString => EmptyString
  | String a EmptyString =>
      let a := N_of_ascii a in
      String (digit (sextet0 a)) (String (digit (sextet1 a 0))
        (String pad (String pad EmptyString)))
  | String a (String b EmptyString) =>
      let a := N_of_ascii a in
      let b := N_of_ascii b in
      String (digit (sextet0 a)) (String (digit (sextet1 a b))
        (String (digit (sextet2 b 0)) (String pad EmptyString)))
  | String a (String b (String c rest)) =>
      let a := N_of_ascii a in
      let b := N_of_ascii b in
      let c := N_of_ascii c in
      String (digit (sextet0 a)) (String (digit (sextet1 a b))
        (String (digit (sextet2 b c)) (String (digit (sextet3 c))
          (encode rest))))
  end.

End Base64.

(* ================================================================== *)
(** ** The host's [File] and [FileReader] *)

Module Host.

(** A [File] as the browser hands it to the page: its name, its declared
    media type (empty when the browser knows none) and its bytes. *)
Record File : Type := mkFile {
  name : string;
  type : string;
  bytes : string
}.

(** [readAsText]: the text the bytes decode to.  A string of the model is
    the byte sequence of its text (UTF-8, no byte-order mark), so decoding
    leaves it as it is. *)
Definition readAsText (file : File) : string :=
  bytes file.

(** [readAsDataURL]: the data URL of RFC 2397, [data:<type>;base64,]
    followed by the Base64 of the bytes; a file without a declared type
    is given [application/octet-stream]. *)
Definition dataURLHeader (mediaType : string) : string :=
  "data:" ++ mediaType ++ ";base64".

Definition readAsDataURL (file : File) : string :=
  dataURLHeader (JS.or_else (type file) "application/octet-stream")
    ++ "," ++ Base64.encode (bytes file).

End Host.

(* ================================================================== *)
(** ** State cells, traces and handlers *)

Module Runtime.

(** The body of a [generateContent] call: a text, or a list of parts of
    inline data ([{ parts: [{ inlineData: { mimeType, data } }] }]).
    [data] is [None] when the source passes [undefined]. *)
Record InlineData : Type := mkInlineData {
  mimeType : string;
  data : option string
}.

Inductive Contents : Type :=
| Text (text : string)
| Parts (parts : list InlineData).

(** What a handler does to the outside. *)
Inductive Event : Type :=
| GenerateContent (model : string) (contents : Contents)
    (responseMimeType : string)
| Fetch (url : string)
| ConsoleError (message : string).

(** The cells of a component together with the events so far, oldest
    first. *)
Record World (S : Type) : Type := mkWorld {
  cells : S;
  events : list Event
}.
Arguments mkWorld {S} cells events.
Arguments cells {S} w.
Arguments events {S} w.

(** A handler, or a piece of one. *)
Definition Action (S : Type) : Type := World S -> World S.

Definition skip {S : Type} : Action S := fun w => w.

Definition seq {S : Type} (first next : Action S) : Action S :=
  fun w => next (first w).

(** A setter applied to the cells. *)
Definition set {S : Type} (update : S -> S) : Action S :=
  fun w => mkWorld (update (cells w)) (events w).

Definition emit {S : Type} (e : Event) : Action S :=
  fun w => mkWorld (cells w) (events w ++ [e]).

(** A handler that reads the cells it was rendered with. *)
Definition reading {S : Type} (body : S -> Action S) : Action S :=
  fun w => body (cells w) w.

(** [try { body } catch (e) { handler } finally { finalizer }], for a
    [body] whose effects on the cells all come after the last point
    where it can throw. *)
Definition try_catch_finally {S : Type}
    (body : JS.completion (Action S))
    (handler : string -> Action S) (finalizer : Action S) : Action S :=
  seq (match body with
       | JS.Normal effects => effects
       | JS.Throw e => handler e
       end) finalizer.

(** Sequencing of evaluations that may throw. *)
Definition bind {A B : Type} (c : JS.completion A)
    (k : A -> JS.completion B) : JS.completion B :=
  match c with
  | JS.Normal a => k a
  | JS.Throw e => JS.Throw e
  end.

End Runtime.

Declare Scope action_scope.
Delimit Scope action_scope with action.
Notation "a ;; b" := (Runtime.seq a b)
(at level 61, right associativity) : action_scope.
Notation "'let*' x ':=' c 'in' k" := (Runtime.bind c (fun x => k))
(at level 62, x name, c at next level, right associativity).

(* ================================================================== *)
(** ** [FileDropZone]: reading a dropped or chosen file *)

Module FileDropZone.
Import Host.

(** [const isText = ...] of [processFile]. *)
Definition isText (file : File) : bool :=
  JS.endsWith (name file) ".eml" || JS.endsWith (name file) ".txt"
  || (type file =? "text/plain")%string.

(** The type handed to [onFileLoaded]:
    [file.type || (isText ? 'text/plain' : 'application/octet-stream')]. *)
Definition loadedMimeType (file : File) : string :=
  JS.or_else (type file)
    (if isText file then "text/plain" else "application/octet-stream").

(** What the reader's [onload] receives: the text of the file when it
    was read with [readAsText], its data URL when it was read with
    [readAsDataURL]. *)
Definition loadedContent (file : File) : string :=
  if isText file then readAsText file else readAsDataURL file.

(** [processFile]: the file is read, and [onFileLoaded] is called with
    the result, the name and the type.  (A read that fails calls
    nothing; the files of the model can all be read.) *)
Definition processFile {S : Type}
    (onFileLoaded : string -> string -> string -> Runtime.Action S)
    (file : File) : Runtime.Action S :=
  onFileLoaded (loadedContent file) (name file) (loadedMimeType file).

End FileDropZone.

(* ================================================================== *)
(** ** The response schemas sent with the requests *)

Module Schema.

(** The part of the [Type] vocabulary the two schemas use. *)
Inductive t : Type :=
| STRING (enum : list string)      (* [enum] empty: any string *)
| INTEGER
| BOOLEAN
| ARRAY (items : t)
| OBJECT (properties : list (string * t)) (required : list string).

Definition analysisSchema : t :=
  OBJECT
    [ ("verdict", STRING ["Clean"; "Suspicious"; "Malicious"]);
      ("confidence_score", INTEGER);
      ("simple_analysis", OBJECT [("explanation", STRING [])] []);
      ("recommendations",
        OBJECT [("do", ARRAY (STRING [])); ("dont", ARRAY (STRING []))] []);
      ("expert_analysis",
        OBJECT [ ("technical_summary", STRING []);
                 ("mitre_attack_ids", ARRAY (STRING []));
                 ("spf_dkim_dmarc_status", STRING []) ] []);
      ("sender_metadata",
        OBJECT [ ("ip_address", STRING []);
                 ("estimated_country", STRING []);
                 ("is_vpn_or_proxy", BOOLEAN) ] []);
      ("headers",
        OBJECT [ ("from", STRING []); ("return_path", STRING []);
                 ("subject", STRING []) ] []);
      ("red_flags", ARRAY (STRING []));
      ("attacker_replication_code", STRING []) ]
    [ "verdict"; "confidence_score"; "simple_analysis"; "recommendations";
      "expert_analysis"; "sender_metadata"; "headers"; "red_flags";
      "attacker_replication_code" ].

Definition quizSchema : t :=
  OBJECT
    [ ("is_phishing", BOOLEAN); ("sender", STRING []);
      ("subject", STRING []); ("body", STRING []); ("clues", STRING []) ]
    [ "is_phishing"; "sender"; "subject"; "body"; "clues" ].

Definition required_of (schema : t) : list string :=
  match schema with
  | OBJECT _ required => required
  | _ => []
  end.

Definition is_present (v : JS.value) : bool :=
  match v with
  | Some _ => true
  | None => false
  end.

(** A value matches a schema: it has the schema's type, an object has
    every required property, and each declared property it has matches
    the property's schema. *)
Fixpoint matches (schema : t) (v : JS.json) {struct schema} : bool :=
  match schema, v with
  | STRING enum, JS.JStr s =>
      match enum with
      | [] => true
      | _ => existsb (String.eqb s) enum
      end
  | INTEGER, JS.JNum q => (Zpos (Qden q) =? 1)%Z
  | BOOLEAN, JS.JBool _ => true
  | ARRAY items, JS.JArr elements => forallb (matches items) elements
  | OBJECT properties required, JS.JObj props =>
      forallb (fun key => is_present (JS.assoc key props)) required
      && (fix declared (ps : list (string * t)) : bool :=
            match ps with
            | [] => true
            | (key, s) :: rest =>
                match JS.assoc key props with
                | Some fv => matches s fv
                | None => true
                end && declared rest
            end) properties
  | _, _ => false
  end.

End Schema.

(* ================================================================== *)
(** ** [App]: the file cells, the submission and the reset *)

Module App.
Import Runtime.
Local Open Scope action_scope.

(** The eight [useState] cells of [App]. *)
Record State : Type := mkState {
  fileContent : option string;
  fileMimeType : option string;
  fileName : option string;
  analysis : option JS.json;
  isLoading : bool;
  error : option string;
  isAnalystMode : bool;
  showQuiz : bool
}.

(** The cells as [useState] initialises them. *)
Definition initial : State :=
  mkState None None None None false None false false.

Definition setFileContent (v : option string) : Action State :=
  set (fun s => mkState v (fileMimeType s) (fileName s) (analysis s)
                  (isLoading s) (error s) (isAnalystMode s) (showQuiz s)).
Definition setFileMimeType (v : option string) : Action State :=
  set (fun s => mkState (fileContent s) v (fileName s) (analysis s)
                  (isLoading s) (error s) (isAnalystMode s) (showQuiz s)).
Definition setFileName (v : option string) : Action State :=
  set (fun s => mkState (fileContent s) (fileMimeType s) v (analysis s)
                  (isLoading s) (error s) (isAnalystMode s) (showQuiz s)).
Definition setAnalysis (v : option JS.json) : Action State :=
  set (fun s => mkState (fileContent s) (fileMimeType s) (fileName s) v
                  (isLoading s) (error s) (isAnalystMode s) (showQuiz s)).
Definition setIsLoading (v : bool) : Action State :=
  set (fun s => mkState (fileContent s) (fileMimeType s) (fileName s)
                  (analysis s) v (error s) (isAnalystMode s) (showQuiz s)).
Definition setError (v : option string) : Action State :=
  set (fun s => mkState (fileContent s) (fileMimeType s) (fileName s)
                  (analysis s) (isLoading s) v (isAnalystMode s)
                  (showQuiz s)).
Definition setIsAnalystMode (v : bool) : Action State :=
  set (fun s => mkState (fileContent s) (fileMimeType s) (fileName s)
                  (analysis s) (isLoading s) (error s) v (showQuiz s)).
Definition setShowQuiz (v : bool) : Action State :=
  set (fun s => mkState (fileContent s) (fileMimeType s) (fileName s)
                  (analysis s) (isLoading s) (error s) (isAnalystMode s)
                  v).

Definition handleFileLoaded (content name mimeType : string)
  : Action State :=
  setFileContent (Some content) ;;
  setFileName (Some name) ;;
  setFileMimeType (Some mimeType) ;;
  setAnalysis None ;;
  setError None.

(** The ["Analyze Another File"] button. *)
Definition reset : Action State :=
  setAnalysis None ;; setFileContent None ;; setFileName None.

(** The mode toggle and the quiz button of the header. *)
Definition toggleMode : Action State :=
  reading (fun s => setIsAnalystMode (negb (isAnalystMode s))).
Definition openQuiz : Action State := setShowQuiz true.
Definition closeQuiz : Action State := setShowQuiz false.

Definition noContentMessage : string := "No file content detected.".
Definition failureMessage : string :=
  "Analysis failed. Please check your API key or file format.".
Definition emptyResponseMessage : string := "Empty response from AI.".

(** The test of the binary branch:
    [fileMimeType && fileMimeType !== "text/plain"
       && fileMimeType !== "message/rfc822"]. *)
Definition isBinaryType (fileMimeType : option string) : bool :=
  match fileMimeType with
  | Some m =>
      JS.truthy_string m && negb (m =? "text/plain")%string
      && negb (m =? "message/rfc822")%string
  | None => false
  end.

(** [contentsPayload], from the two cells [analyzeEmail] reads. *)
Definition contentsPayload (fileContent : string)
    (fileMimeType : option string) : Contents :=
  match fileMimeType with
  | Some m =>
      if isBinaryType fileMimeType
      then
        let cleanBase64 := JS.index (JS.split "," fileContent) 1 in
        Parts [mkInlineData m cleanBase64]
      else Text fileContent
  | None => Text fileContent
  end.

(** The [generateContent] call of [analyzeEmail]: the model, the
    contents and the requested response type. *)
Definition request (contents : Contents) : Event :=
  GenerateContent "gemini-2.5-flash" contents "application/json".

(** How the [generateContent] call settles: rejected, or fulfilled with
    a response whose [text] may be [undefined]. *)
Inductive Reply : Type :=
| Rejected (reason : string)
| Fulfilled (text : option string).

Section Submission.

(** [JSON.parse]: the value of a text, or the [SyntaxError] thrown. *)
Variable JSON_parse : string -> JS.completion JS.json.

(** The statements of the [try] block after the [await]. *)
Definition bindReply (reply : Reply) : JS.completion (Action State) :=
  match reply with
  | Rejected reason => JS.Throw reason
  | Fulfilled text =>
      match text with
      | Some t =>
          if JS.truthy_string t
          then let* parsed := JSON_parse t in
               JS.Normal (setAnalysis (JS.nullable parsed))
          else JS.Throw emptyResponseMessage
      | None => JS.Throw emptyResponseMessage
      end
  end.


(** [analyzeEmail] up to the [await]: the guard on the content, the
    three setters, and the request. *)
Definition analyzeEmail_submit : Action State :=
  reading (fun s =>
    match fileContent s with
    | Some content =>
        if JS.truthy_string content
        then setIsLoading true ;; setError None ;; setAnalysis None ;;
             emit (request (contentsPayload content (fileMimeType s)))
        else setError (Some noContentMessage)
    | None => setError (Some noContentMessage)
    end).

(** [analyzeEmail] from the [await] on, once the call has settled. *)
Definition analyzeEmail_settle (reply : Reply) : Action State :=
  try_catch_finally (bindReply reply)
    (fun e => emit (ConsoleError e) ;; setError (Some failureMessage))
    (setIsLoading false).

(** Whether [analyzeEmail] gets as far as the request. *)
Definition submits (s : State) : bool :=
  JS.truthy_nullable (fileContent s).

(** A whole run of [analyzeEmail], with no other handler in between. *)
Definition analyzeEmail (reply : Reply) : Action State :=
  reading (fun s =>
    if submits s
    then analyzeEmail_submit ;; analyzeEmail_settle reply
    else analyzeEmail_submit).

End Submission.

(** A file is dropped on the page and [Run Analysis] is pressed. *)
Definition dispatch (file : Host.File) : Action State :=
  FileDropZone.processFile handleFileLoaded file ;; analyzeEmail_submit.

(** The top-level fields of [AnalysisResult]. *)
Definition resultFields : list string :=
  [ "verdict"; "confidence_score"; "simple_analysis"; "recommendations";
    "expert_analysis"; "sender_metadata"; "headers"; "red_flags";
    "attacker_replication_code" ].

(** [analysis.key], as the two views read the result. *)
Definition resultField (s : State) (key : string) : JS.value :=
  match analysis s with
  | Some result => JS.member result key
  | None => None
  end.

(** What the page shows: the input section while there is no result,
    the result section otherwise, in the view the mode selects. *)
Definition showsResults (s : State) : bool :=
  JS.truthy (analysis s).
Definition showsAnalystView (s : State) : bool :=
  showsResults s && isAnalystMode s.

End App.

(* ================================================================== *)
(** ** [ThreatMap]: the geolocation lookup and the map view *)

Module ThreatMap.
Import Runtime.
Local Open Scope action_scope.

Record State : Type := mkState {
  geoData : option JS.json;
  loading : bool
}.

Definition initial : State := mkState None false.

Definition setGeoData (v : option JS.json) : Action State :=
  set (fun s => mkState v (loading s)).
Definition setLoading (v : bool) : Action State :=
  set (fun s => mkState (geoData s) v).

(** How the [fetch] settles: rejected, or a response with its [ok] flag
    and the text of its body. *)
Inductive Reply : Type :=
| Rejected (reason : string)
| Response (ok : bool) (body : string).

(** The guard of the effect:
    [!ip || ip === "N/A" || ip === "127.0.0.1"]. *)
Definition skipsLookup (ip : string) : bool :=
  negb (JS.truthy_string ip) || (ip =? "N/A")%string
  || (ip =? "127.0.0.1")%string.

Definition lookupURL (ip : string) : string :=
  "https://ipapi.co/" ++ ip ++ "/json/".

Definition geoFailureMessage : string := "Geo fetch failed".

Section Lookup.

(** The parser behind [res.json()]. *)
Variable JSON_parse : string -> JS.completion JS.json.

(** The [try] block of [fetchGeo] after the [fetch]. *)
Definition acceptReply (reply : Reply) : JS.completion (Action State) :=
  match reply with
  | Rejected reason => JS.Throw reason
  | Response ok body =>
      if negb ok then JS.Throw "Failed to fetch"
      else
        let* data := JSON_parse body in
        let* latitude := JS.get_prop data "latitude" in
        if JS.truthy latitude
        then let* longitude := JS.get_prop data "longitude" in
             if JS.truthy longitude
             then JS.Normal (setGeoData (Some data))
             else JS.Normal skip
        else JS.Normal skip
  end.

(** A lookup that fails: the [fetch] is rejected, the response is not
    [ok], or its body is no JSON text or the JSON [null]. *)
Definition lookupFails (reply : Reply) : bool :=
  match reply with
  | Rejected _ => true
  | Response ok body =>
      negb ok
      || match JSON_parse body with
         | JS.Throw _ => true
         | JS.Normal JS.JNull => true
         | JS.Normal _ => false
         end
  end.

(** [fetchGeo], for the way its [fetch] settles. *)
Definition fetchGeo (ip : string) (reply : Reply) : Action State :=
  setLoading true ;;
  emit (Fetch (lookupURL ip)) ;;
  try_catch_finally (acceptReply reply)
    (fun _ => emit (ConsoleError geoFailureMessage))
    (setLoading false).

(** The effect that runs when the component is mounted and whenever
    [ip] changes. *)
Definition effect (ip : string) (reply : Reply) : Action State :=
  if skipsLookup ip then skip else fetchGeo ip reply.

End Lookup.

(** The view of the map: the looked-up position at zoom 10, or the
    default. *)
Definition defaultCenter : JS.value * JS.value :=
  (Some (JS.JNum 20), Some (JS.JNum 0)).

Definition center (s : State) : JS.value * JS.value :=
  match geoData s with
  | Some geo =>
      if JS.truthy (geoData s)
      then (JS.member geo "latitude", JS.member geo "longitude")
      else defaultCenter
  | None => defaultCenter
  end.

Definition zoom (s : State) : Z :=
  if JS.truthy (geoData s) then 10%Z else 2%Z.

Definition showsMarker (s : State) : bool :=
  JS.truthy (geoData s).

End ThreatMap.

(* ================================================================== *)
(** ** [QuizModal]: one round of the quiz *)

Module QuizModal.
Import Runtime.
Local Open Scope action_scope.

Inductive Verdict : Type := correct | wrong.

Record State : Type := mkState {
  quizData : option JS.json;
  loading : bool;
  result : option Verdict;
  score : Z
}.

Definition initial : State := mkState None true None 0%Z.

Definition setQuizData (v : option JS.json) : Action State :=
  set (fun s => mkState v (loading s) (result s) (score s)).
Definition setLoading (v : bool) : Action State :=
  set (fun s => mkState (quizData s) v (result s) (score s)).
Definition setResult (v : option Verdict) : Action State :=
  set (fun s => mkState (quizData s) (loading s) v (score s)).
(** [setScore(f)]: the updater form. *)
Definition setScore (f : Z -> Z) : Action State :=
  set (fun s => mkState (quizData s) (loading s) (result s) (f (score s))).

(** [guess === v] for a boolean [guess]: [v] is the same boolean. *)
Definition strictEqualsBool (guess : bool) (v : JS.value) : bool :=
  match v with
  | Some (JS.JBool b) => Bool.eqb guess b
  | _ => false
  end.

Definition handleGuess (isPhishingGuess : bool) : Action State :=
  reading (fun s =>
    match quizData s with
    | Some scenario =>
        if JS.truthy (quizData s)
        then
          let isCorrect :=
            strictEqualsBool isPhishingGuess
              (JS.member scenario "is_phishing") in
          setResult (Some (if isCorrect then correct else wrong)) ;;
          (if isCorrect then setScore (fun s => (s + 1)%Z) else skip)
        else skip
    | None => skip
    end).

Inductive Reply : Type :=
| Rejected (reason : string)
| Fulfilled (text : option string).

Section Loading.

Variable JSON_parse : string -> JS.completion JS.json.

Definition bindReply (reply : Reply) : JS.completion (Action State) :=
  match reply with
  | Rejected reason => JS.Throw reason
  | Fulfilled text =>
      match text with
      | Some t =>
          if JS.truthy_string t
          then let* parsed := JSON_parse t in
               JS.Normal (setQuizData (JS.nullable parsed))
          else JS.Normal skip
      | None => JS.Normal skip
      end
  end.

Definition loadQuestion (reply : Reply) : Action State :=
  setLoading true ;; setResult None ;; setQuizData None ;;
  emit (GenerateContent "gemini-2.5-flash"
          (Text "Generate a unique email scenario for a phishing awareness quiz.")
          "application/json") ;;
  try_catch_finally (bindReply reply)
    (fun e => emit (ConsoleError e))
    (setLoading false).

End Loading.

End QuizModal.

(* ================================================================== *)
(** ** The page: [App] with the components that keep cells of their own *)

Module Page.
Import Runtime.

Record State : Type := mkState {
  app : App.State;
  threatMap : ThreatMap.State;
  quizModal : QuizModal.State
}.

(** A handler of [ThreatMap] runs on the two cells of [ThreatMap]: its
    closure holds [setGeoData] and [setLoading] and no setter of [App]. *)
Definition inThreatMap (a : Action ThreatMap.State) : Action State :=
  fun w =>
    let w' := a (mkWorld (threatMap (cells w)) (events w)) in
    mkWorld (mkState (app (cells w)) (cells w') (quizModal (cells w)))
      (events w').

End Page.

(* ================================================================== *)
(** ** A reader of JSON texts

  The handlers above take the host's parser as a parameter, and the
  theorems hold for every parser.  The examples are run with this one,
  which reads the JSON texts without exponents and without [\u]
  escapes; a property given twice keeps its last value. *)

Module JSONText.
Import JS.

Definition isSpace (c : ascii) : bool :=
  (c =? " ")%char || (c =? "010")%char || (c =? "013")%char
  || (c =? "009")%char.

Fixpoint skipSpace (s : string) : string :=
  match s with
  | String c rest => if isSpace c then skipSpace rest else s
  | EmptyString => s
  end.

Definition digitOf (c : ascii) : option Z :=
  let n := Z.of_N (N_of_ascii c) in
  if ((48 <=? n) && (n <=? 57))%Z then Some (n - 48)%Z else None.

(** The digits at the head of [s]: [acc] extended by them, how many
    there were, and what follows. *)
Fixpoint digits (s : string) (acc : Z) (count : nat)
  : Z * nat * string :=
  match s with
  | String c rest =>
      match digitOf c with
      | Some d => digits rest (10 * acc + d)%Z (S count)
      | None => (acc, count, s)
      end
  | EmptyString => (acc, count, s)
  end.

Definition signed (negative : bool) (q : Q) : Q :=
  if negative then Qopp q else q.

(** A number: an optional sign, digits, and an optional fraction. *)
Definition number (s : string) : option (json * string) :=
  let (negative, s1) :=
    match s with
    | String "-" rest => (true, rest)
    | _ => (false, s)
    end in
  match digits s1 0%Z 0 with
  | (_, O, _) => None
  | (whole, _, String "." s2) =>
      match digits s2 whole 0 with
      | (_, O, _) => None
      | (scaled, places, s3) =>
          Some (JNum (signed negative
                        (Qred (scaled # Pos.pow 10 (Pos.of_nat places)))),
                s3)
      end
  | (whole, _, s2) => Some (JNum (signed negative (whole # 1)), s2)
  end.

Definition quote : ascii := "034"%char.
Definition backslash : ascii := "092"%char.

(** The character an escape stands for. *)
Definition escaped (e : ascii) : option ascii :=
  if (e =? quote)%char then Some quote
  else if (e =? backslash)%char then Some backslash
  else if (e =? "/")%char then Some "/"%char
  else if (e =? "n")%char then Some "010"%char
  else if (e =? "r")%char then Some "013"%char
  else if (e =? "t")%char then Some "009"%char
  else None.

(** The characters of a string up to its closing quote. *)
Fixpoint characters (s : string) : option (string * string) :=
  match s with
  | EmptyString => None
  | String c rest =>
      if (c =? quote)%char then Some (EmptyString, rest)
      else if (c =? backslash)%char then
        match rest with
        | String e rest' =>
            match escaped e, characters rest' with
            | Some c', Some (text, after) => Some (String c' text, after)
            | _, _ => None
            end
        | EmptyString => None
        end
      else
        match characters rest with
        | Some (text, after) => Some (String c text, after)
        | None => None
        end
  end.

Definition keyword (word : string) (v : json) (s : string)
  : option (json * string) :=
  if prefix word s
  then Some (v, substring (String.length word)
                  (String.length s - String.length word) s)
  else None.

(** Assigning a property: an existing one is overwritten in place. *)
Fixpoint assign (key : string) (v : json) (props : list (string * json))
  : list (string * json) :=
  match props with
  | [] => [(key, v)]
  | (k, old) :: rest =>
      if (k =? key)%string then (k, v) :: rest
      else (k, old) :: assign key v rest
  end.

Fixpoint element (fuel : nat) (s : string) {struct fuel}
  : option (json * string) :=
  match fuel with
  | O => None
  | S fuel' =>
      match skipSpace s with
      | String "n" _ => keyword "null" JNull (skipSpace s)
      | String "t" _ => keyword "true" (JBool true) (skipSpace s)
      | String "f" _ => keyword "false" (JBool false) (skipSpace s)
      | String "034" rest =>
          match characters rest with
          | Some (text, after) => Some (JStr text, after)
          | None => None
          end
      | String "[" rest =>
          match skipSpace rest with
          | String "]" after => Some (JArr [], after)
          | _ =>
              match elements fuel' rest with
              | Some (items, after) => Some (JArr items, after)
              | None => None
              end
          end
      | String "{" rest =>
          match skipSpace rest with
          | String "}" after => Some (JObj [], after)
          | _ =>
              match members fuel' rest [] with
              | Some (props, after) => Some (JObj props, after)
              | None => None
              end
          end
      | _ => number (skipSpace s)
      end
  end
with elements (fuel : nat) (s : string) {struct fuel}
  : option (list json * string) :=
  match fuel with
  | O => None
  | S fuel' =>
      match element fuel' s with
      | Some (v, after) =>
          match skipSpace after with
          | String "," more =>
              match elements fuel' more with
              | Some (vs, rest) => Some (v :: vs, rest)
              | None => None
              end
          | String "]" rest => Some ([v], rest)
          | _ => None
          end
      | None => None
      end
  end
with members (fuel : nat) (s : string) (props : list (string * json))
    {struct fuel} : option (list (string * json) * string) :=
  match fuel with
  | O => None
  | S fuel' =>
      match skipSpace s with
      | String "034" rest =>
          match characters rest with
          | Some (key, after) =>
              match skipSpace after with
              | String ":" more =>
                  match element fuel' more with
                  | Some (v, after') =>
                      match skipSpace after' with
                      | String "," next =>
                          members fuel' next (assign key v props)
                      | String "}" rest' =>
                          Some (assign key v props, rest')
                      | _ => None
                      end
                  | None => None
                  end
              | _ => None
              end
          | None => None
          end
      | _ => None
      end
  end.

(** [s] between quotes, as a JSON text writes a string without escapes. *)
Definition quoted (s : string) : string :=
  String quote (s ++ String quote EmptyString).

(** [key: value] and [{ ... }] from the texts of the parts. *)
Definition property (key valueText : string) : string :=
  quoted key ++ ":" ++ valueText.

Definition object (properties : list string) : string :=
  "{" ++ String.concat "," properties ++ "}".

Definition array (items : list string) : string :=
  "[" ++ String.concat "," items ++ "]".

Definition parse (text : string) : completion json :=
  match element (S (String.length text)) text with
  | Some (v, rest) =>
      match skipSpace rest with
      | EmptyString => Normal v
      | _ => Throw "SyntaxError"
      end
  | None => Throw "SyntaxError"
  end.

End JSONText.

(* ================================================================== *)
(** ** Inputs used in the examples *)

Module Samples.
Import Runtime.

(** A page on which nothing has happened yet. *)
Definition fresh : World App.State := mkWorld App.initial [].

Definition emlFile : Host.File :=
  Host.mkFile "report.eml" "text/plain" "Subject: test".

(** An e-mail whose extension is in capitals: the browser declares it
    [message/rfc822], and its name does not end in [.eml]. *)
Definition upperCaseEml : Host.File :=
  Host.mkFile "MAIL.EML" "message/rfc822" "Subject: test".

Definition pdfFile : Host.File :=
  Host.mkFile "invoice.pdf" "application/pdf" "%PDF-1.4".

(** A file declared as a PDF under a name that ends in [.txt]. *)
Definition misnamedFile : Host.File :=
  Host.mkFile "notes.txt" "application/pdf" "a,b".

(** A declared type that holds a comma. *)
Definition commaTypedFile : Host.File :=
  Host.mkFile "blob.bin" "a/b,c" "ABC".

Definition untypedEml : Host.File :=
  Host.mkFile "mail.eml" "" "Subject: hi".

Definition untypedDump : Host.File :=
  Host.mkFile "core.dump" "" "xyz".

(** A page with a loaded file and the result of an earlier analysis. *)
Definition previousResult : JS.json :=
  JS.JObj [("verdict", JS.JStr "Clean")].

Definition pageWithResult : World App.State :=
  mkWorld
    (App.mkState (Some "Subject: test") (Some "text/plain")
       (Some "report.eml") (Some previousResult) false None true true)
    [].

(** The page after [emlFile] has been dropped on it. *)
Definition loadedPage : World App.State :=
  FileDropZone.processFile App.handleFileLoaded emlFile fresh.

Definition malformedText : string := "{oops".

(** A reply with the nine fields of the schema. *)
Definition analysisText : string :=
  JSONText.object
    [ JSONText.property "verdict" (JSONText.quoted "Malicious");
      JSONText.property "confidence_score" "97";
      JSONText.property "simple_analysis"
        (JSONText.object
           [JSONText.property "explanation"
              (JSONText.quoted "Someone pretends to be your bank.")]);
      JSONText.property "recommendations"
        (JSONText.object
           [ JSONText.property "do"
               (JSONText.array [JSONText.quoted "Delete the message"]);
             JSONText.property "dont"
               (JSONText.array [JSONText.quoted "Open the link"]) ]);
      JSONText.property "expert_analysis"
        (JSONText.object
           [ JSONText.property "technical_summary"
               (JSONText.quoted "Spoofed sender, credential harvesting.");
             JSONText.property "mitre_attack_ids"
               (JSONText.array [JSONText.quoted "T1566.002"]);
             JSONText.property "spf_dkim_dmarc_status"
               (JSONText.quoted "SPF fail, DKIM none") ]);
      JSONText.property "sender_metadata"
        (JSONText.object
           [ JSONText.property "ip_address" (JSONText.quoted "203.0.113.7");
             JSONText.property "estimated_country" (JSONText.quoted "NL");
             JSONText.property "is_vpn_or_proxy" "true" ]);
      JSONText.property "headers"
        (JSONText.object
           [ JSONText.property "from" (JSONText.quoted "bank@example.com");
             JSONText.property "return_path"
               (JSONText.quoted "bounce@example.net");
             JSONText.property "subject" (JSONText.quoted "Verify now") ]);
      JSONText.property "red_flags"
        (JSONText.array [JSONText.quoted "Mismatched return path"]);
      JSONText.property "attacker_replication_code"
        (JSONText.quoted "print(1)") ].

Definition analysisValue : JS.json :=
  JS.JObj
    [ ("verdict", JS.JStr "Malicious");
      ("confidence_score", JS.JNum 97);
      ("simple_analysis",
        JS.JObj [("explanation", JS.JStr "Someone pretends to be your bank.")]);
      ("recommendations",
        JS.JObj [ ("do", JS.JArr [JS.JStr "Delete the message"]);
                  ("dont", JS.JArr [JS.JStr "Open the link"]) ]);
      ("expert_analysis",
        JS.JObj
          [ ("technical_summary",
              JS.JStr "Spoofed sender, credential harvesting.");
            ("mitre_attack_ids", JS.JArr [JS.JStr "T1566.002"]);
            ("spf_dkim_dmarc_status", JS.JStr "SPF fail, DKIM none") ]);
      ("sender_metadata",
        JS.JObj [ ("ip_address", JS.JStr "203.0.113.7");
                  ("estimated_country", JS.JStr "NL");
                  ("is_vpn_or_proxy", JS.JBool true) ]);
      ("headers",
        JS.JObj [ ("from", JS.JStr "bank@example.com");
                  ("return_path", JS.JStr "bounce@example.net");
                  ("subject", JS.JStr "Verify now") ]);
      ("red_flags", JS.JArr [JS.JStr "Mismatched return path"]);
      ("attacker_replication_code", JS.JStr "print(1)") ].

(** A quiz round in which the scenario is a phishing mail. *)
Definition phishingScenario : JS.json :=
  JS.JObj
    [ ("is_phishing", JS.JBool true);
      ("sender", JS.JStr "it-support@examp1e.com");
      ("subject", JS.JStr "Password expires today");
      ("body", JS.JStr "Sign in here to keep your account.");
      ("clues", JS.JStr "Look-alike domain and urgency.") ].

Definition quizRound : World QuizModal.State :=
  mkWorld (QuizModal.mkState (Some phishingScenario) false None 3%Z) [].

(** A page in the analyst view, with a freshly mounted map. *)
Definition analystPage : World Page.State :=
  mkWorld
    (Page.mkState
       (App.mkState None (Some "text/plain") None (Some analysisValue)
          false None true false)
       ThreatMap.initial QuizModal.initial)
    [].

Definition mountedMap : World ThreatMap.State :=
  mkWorld ThreatMap.initial [].

(** A position on the equator, and one off it. *)
Definition equatorBody : string :=
  JSONText.object
    [ JSONText.property "latitude" "0";
      JSONText.property "longitude" "12.5" ].

Definition amsterdamBody : string :=
  JSONText.object
    [ JSONText.property "latitude" "52.37";
      JSONText.property "longitude" "4.89";
      JSONText.property "city" (JSONText.quoted "Amsterdam") ].

End Samples.

(* ================================================================== *)
(** ** [ModeToggle]: the two buttons of the mode switch *)

Module ModeToggle.
Import Runtime.

(** [onClick={() => isAnalyst && toggle()}], with the [toggle] that
    [App] passes. *)
Definition clickCivilian : Action App.State :=
  reading (fun s => if App.isAnalystMode s then App.toggleMode else skip).

(** [onClick={() => !isAnalyst && toggle()}]. *)
Definition clickAnalyst : Action App.State :=
  reading (fun s =>
    if negb (App.isAnalystMode s) then App.toggleMode else skip).

End ModeToggle.

(* ================================================================== *)
(** ** [FileDropZone]: the drag, drop and input handlers *)

Module Upload.
Import Runtime.
Local Open Scope action_scope.

(** The cell of [FileDropZone] next to the cells of the [App] whose
    [handleFileLoaded] it is given. *)
Record State : Type := mkState {
  isDragging : bool;
  app : App.State
}.

Definition setIsDragging (v : bool) : Action State :=
  set (fun s => mkState v (app s)).

(** The callback [onFileLoaded] runs on the cells of [App]. *)
Definition inApp (a : Action App.State) : Action State :=
  fun w =>
    let w' := a (mkWorld (app (cells w)) (events w)) in
    mkWorld (mkState (isDragging (cells w)) (cells w')) (events w').

Definition handleDragOver : Action State := setIsDragging true.

Definition handleDragLeave : Action State := setIsDragging false.

(** [handleDrop]: [files] is [e.dataTransfer.files]; only [files[0]] is
    looked at. *)
Definition handleDrop (files : list Host.File) : Action State :=
  setIsDragging false ;;
  match files with
  | file :: _ => inApp (FileDropZone.processFile App.handleFileLoaded file)
  | [] => skip
  end.

(** [handleFileInput]: [files] is [e.target.files], empty when it is
    [null]. *)
Definition handleFileInput (files : list Host.File) : Action State :=
  match files with
  | file :: _ => inApp (FileDropZone.processFile App.handleFileLoaded file)
  | [] => skip
  end.

End Upload.

(* ================================================================== *)
(** ** [CivilianView]: what the verdict selects, and what is read *)

Module Views.

(** [result.verdict === name]. *)
Definition verdictIs (result : JS.json) (name : string) : bool :=
  match JS.member result "verdict" with
  | Some (JS.JStr v) => (v =? name)%string
  | _ => false
  end.

Definition isMalicious (result : JS.json) : bool :=
  verdictIs result "Malicious".
Definition isSuspicious (result : JS.json) : bool :=
  verdictIs result "Suspicious".

(** [CivilianView]: the background and the colour of the title start as
    the green ones and are replaced under [isMalicious], else under
    [isSuspicious]. *)
Definition bgGradient (result : JS.json) : string :=
  if isMalicious result then "from-red-500/20 to-pink-500/5"
  else if isSuspicious result then "from-amber-500/20 to-orange-500/5"
  else "from-green-500/20 to-emerald-500/5".

Definition titleColor (result : JS.json) : string :=
  if isMalicious result then "text-red-400"
  else if isSuspicious result then "text-amber-400"
  else "text-emerald-400".

(** The title of [CivilianView]. *)
Definition title (result : JS.json) : string :=
  if verdictIs result "Clean" then "Safe to Open"
  else if verdictIs result "Malicious" then "Do Not Open"
  else "Be Careful".

End Views.

(* ================================================================== *)
(** ** [CivilianView]: the component function

    What the function returns for a result, or the [TypeError] it
    throws while it reads the result.  The element it returns is
    modelled by the values it places in it. *)

Module CivilianView.

(** The three emoji of [icon]: the check mark it starts as, the siren
    under [isMalicious], the warning sign under [isSuspicious]. *)
Inductive Icon : Type := checkMark | siren | warningSign.

Definition icon (result : JS.json) : Icon :=
  if Views.isMalicious result then siren
  else if Views.isSuspicious result then warningSign
  else checkMark.

Record Card : Type := mkCard {
  cardBackground : string;
  cardIcon : Icon;
  cardTitleColor : string;
  cardTitle : string;
  explanation : JS.value;
  recommended : list JS.json;
  avoided : list JS.json
}.

(** [v.key] for a value that may be [undefined]: a [TypeError] on
    [undefined] and on [null]. *)
Definition read (v : JS.value) (key : string) : JS.completion JS.value :=
  match v with
  | Some object => JS.get_prop object key
  | None => JS.Throw "TypeError"
  end.

(** [v.map(...)]: the items of an array; on every other value [map] is
    not there to be called. *)
Definition items (v : JS.value) : JS.completion (list JS.json) :=
  match v with
  | Some (JS.JArr elements) => JS.Normal elements
  | _ => JS.Throw "TypeError"
  end.

(** The body of [CivilianView], in the order it reads [result]. *)
Definition render (result : JS.json) : JS.completion Card :=
  let* verdict := JS.get_prop result "verdict" in
  let* simple_analysis := JS.get_prop result "simple_analysis" in
  let* explanationText := read simple_analysis "explanation" in
  let* recommendations := JS.get_prop result "recommendations" in
  let* dos := read recommendations "do" in
  let* doItems := items dos in
  let* donts := read recommendations "dont" in
  let* dontItems := items donts in
  JS.Normal
    (mkCard (Views.bgGradient result) (icon result)
       (Views.titleColor result) (Views.title result)
       explanationText doItems dontItems).

End CivilianView.

(* ================================================================== *)
(** ** The tile provider of the map *)

Module Tiles.

(** A number in a template string; the tile coordinates are integers. *)
Definition decimal (n : Z) : string :=
  DecimalString.NilEmpty.string_of_int (Z.to_int n).

(** [String.fromCharCode(n)] for a code below 128. *)
Definition fromCharCode (n : Z) : string :=
  String (ascii_of_N (Z.to_N n)) EmptyString.

(** [97 + (x + y + z) % 3]; [%] is the remainder of the truncating
    division. *)
Definition subdomainCode (x y z : Z) : Z :=
  (97 + Z.rem (x + y + z) 3)%Z.

Definition provider (x y z : Z) : string :=
  let s := fromCharCode (subdomainCode x y z) in
  "https://" ++ s ++ ".basemaps.cartocdn.com/dark_all/" ++ decimal z
    ++ "/" ++ decimal x ++ "/" ++ decimal y ++ "@2x.png".

End Tiles.

(* ================================================================== *)
(** ** A session on the page: the controls that are rendered

    The input section, with the drop zone, is rendered while there is no
    result; the [Run Analysis] button is rendered in it while there is
    file content, and is disabled while [isLoading]; the reset button is
    rendered with the result.  An event on a control that is not
    rendered, or is disabled, does nothing. *)

Module Session.
Import Runtime.

Inductive Event : Type :=
| DropFile (file : Host.File)
| RunAnalysis
| Settled (reply : App.Reply)
| AnalyzeAnother
| ClickCivilian
| ClickAnalyst
| OpenQuiz
| CloseQuiz.

(** The page and whether its [generateContent] call is outstanding. *)
Record State : Type := mkState {
  page : World App.State;
  inFlight : bool
}.

Definition initial : State := mkState (mkWorld App.initial []) false.

(** [{!analysis && ...}]: the input section. *)
Definition showsInput (s : State) : bool :=
  negb (App.showsResults (cells (page s))).

(** The [Run Analysis] button is there and can be pressed. *)
Definition canRun (s : State) : bool :=
  showsInput s && App.submits (cells (page s))
  && negb (App.isLoading (cells (page s))).

Definition onPage (a : Action App.State) (s : State) : State :=
  mkState (a (page s)) (inFlight s).

Section Steps.

Variable JSON_parse : string -> JS.completion JS.json.

Definition step (s : State) (e : Event) : State :=
  match e with
  | DropFile file =>
      if showsInput s
      then onPage (FileDropZone.processFile App.handleFileLoaded file) s
      else s
  | RunAnalysis =>
      if canRun s
      then mkState (App.analyzeEmail_submit (page s)) true
      else s
  | Settled reply =>
      if inFlight s
      then mkState (App.analyzeEmail_settle JSON_parse reply (page s)) false
      else s
  | AnalyzeAnother =>
      if App.showsResults (cells (page s)) then onPage App.reset s else s
  | ClickCivilian => onPage ModeToggle.clickCivilian s
  | ClickAnalyst => onPage ModeToggle.clickAnalyst s
  | OpenQuiz => onPage App.openQuiz s
  | CloseQuiz =>
      if App.showQuiz (cells (page s)) then onPage App.closeQuiz s else s
  end.

Definition run (events : list Event) (s : State) : State :=
  fold_left step events s.

End Steps.

(** How many [generateContent] calls a trace holds. *)
Fixpoint requests (trace : list Runtime.Event) : nat :=
  match trace with
  | [] => 0
  | GenerateContent _ _ _ :: rest => S (requests rest)
  | _ :: rest => requests rest
  end.

(** How many of the events are replies. *)
Fixpoint replies (events : list Event) : nat :=
  match events with
  | [] => 0
  | Settled _ :: rest => S (replies rest)
  | _ :: rest => replies rest
  end.

(** What holds of the page throughout a session. *)
Definition invariant (s : State) : Prop :=
  App.isLoading (cells (page s)) = inFlight s
  /\ (inFlight s = true ->
      App.error (cells (page s)) = None
      /\ App.analysis (cells (page s)) = None)
  /\ (App.analysis (cells (page s)) <> None ->
      App.error (cells (page s)) = None).

End Session.

(* ================================================================== *)
(** ** A session in the quiz modal *)

Module QuizSession.
Import Runtime.
Local Open Scope action_scope.

(** [loadQuestion] up to the [await]. *)
Definition requestQuestion : Action QuizModal.State :=
  QuizModal.setLoading true ;; QuizModal.setResult None ;;
  QuizModal.setQuizData None ;;
  emit (GenerateContent "gemini-2.5-flash"
          (Text "Generate a unique email scenario for a phishing awareness quiz.")
          "application/json").

Inductive Event : Type :=
| Guess (isPhishingGuess : bool)
| NextRound
| Settled (reply : QuizModal.Reply).

(** The modal, whether its call is outstanding, and how many scenarios
    it has shown so far. *)
Record State : Type := mkState {
  modal : World QuizModal.State;
  pending : bool;
  shown : Z
}.

(** The modal is mounted and its effect has called [loadQuestion]. *)
Definition mounted : State :=
  mkState (requestQuestion (mkWorld QuizModal.initial [])) true 0%Z.

(** [!loading && quizData]: the scenario card is rendered. *)
Definition showsScenario (s : State) : bool :=
  negb (QuizModal.loading (cells (modal s)))
  && JS.truthy (QuizModal.quizData (cells (modal s))).

Definition judged (s : State) : bool :=
  match QuizModal.result (cells (modal s)) with
  | Some _ => true
  | None => false
  end.

(** The two guess buttons are rendered under [!result], the
    [NEXT ROUND] button under [result]. *)
Definition canGuess (s : State) : bool := showsScenario s && negb (judged s).
Definition canAdvance (s : State) : bool := showsScenario s && judged s.

Section Steps.

Variable JSON_parse : string -> JS.completion JS.json.

(** [loadQuestion] from the [await] on. *)
Definition settleQuestion (reply : QuizModal.Reply)
  : Action QuizModal.State :=
  try_catch_finally (QuizModal.bindReply JSON_parse reply)
    (fun e => emit (ConsoleError e))
    (QuizModal.setLoading false).

Definition step (s : State) (e : Event) : State :=
  match e with
  | Guess isPhishingGuess =>
      if canGuess s
      then mkState (QuizModal.handleGuess isPhishingGuess (modal s))
             (pending s) (shown s)
      else s
  | NextRound =>
      if canAdvance s
      then mkState (requestQuestion (modal s)) true (shown s)
      else s
  | Settled reply =>
      if pending s
      then
        let modal' := settleQuestion reply (modal s) in
        mkState modal' false
          (if JS.truthy (QuizModal.quizData (cells modal'))
           then (shown s + 1)%Z else shown s)
      else s
  end.

Definition run (events : list Event) (s : State) : State :=
  fold_left step events s.

End Steps.

Definition invariant (s : State) : Prop :=
  QuizModal.loading (cells (modal s)) = pending s
  /\ (pending s = true ->
      QuizModal.quizData (cells (modal s)) = None
      /\ QuizModal.result (cells (modal s)) = None)
  /\ (0 <= QuizModal.score (cells (modal s)))%Z
  /\ (QuizModal.score (cells (modal s))
      + (if canGuess s then 1 else 0) <= shown s)%Z.

End QuizSession.

(* ================================================================== *)
(** ** More inputs for the examples *)

Module Scenarios.
Import Runtime.

Definition secondFile : Host.File :=
  Host.mkFile "other.txt" "text/plain" "Hello".

Definition emptyNote : Host.File :=
  Host.mkFile "empty.txt" "text/plain" "".

(** A page whose request for [Samples.emlFile] is outstanding. *)
Definition submittedPage : World App.State :=
  App.analyzeEmail_submit Samples.loadedPage.

(** A result whose verdict is none of the three of the schema. *)
Definition oddResult : JS.json :=
  JS.JObj
    [ ("verdict", JS.JStr "Unknown");
      ("simple_analysis",
        JS.JObj [("explanation", JS.JStr "Nothing certain was found.")]);
      ("recommendations",
        JS.JObj [ ("do", JS.JArr [JS.JStr "Ask the sender"]);
                  ("dont", JS.JArr [JS.JStr "Reply with a password"]) ]) ].

(** A result with the nine fields of the schema whose nested objects are
    empty. *)
Definition sparseResult : JS.json :=
  JS.JObj
    [ ("verdict", JS.JStr "Clean");
      ("confidence_score", JS.JNum 50);
      ("simple_analysis", JS.JObj []);
      ("recommendations", JS.JObj []);
      ("expert_analysis", JS.JObj []);
      ("sender_metadata", JS.JObj []);
      ("headers", JS.JObj []);
      ("red_flags", JS.JArr []);
      ("attacker_replication_code", JS.JStr "") ].

(** A scenario without its label. *)
Definition unlabelledScenario : JS.json :=
  JS.JObj [("sender", JS.JStr "someone@example.com")].

Definition unlabelledRound : World QuizModal.State :=
  mkWorld (QuizModal.mkState (Some unlabelledScenario) false None 3%Z) [].

Definition scenarioText : string :=
  JSONText.object
    [ JSONText.property "is_phishing" "true";
      JSONText.property "sender" (JSONText.quoted "it@examp1e.com");
      JSONText.property "subject" (JSONText.quoted "Reset");
      JSONText.property "body" (JSONText.quoted "Click here");
      JSONText.property "clues" (JSONText.quoted "Look-alike domain") ].

Definition dropZone : World Upload.State :=
  mkWorld (Upload.mkState true App.initial) [].

(** The body of a response that reports an error and holds no
    position. *)
Definition errorBody : string :=
  JSONText.object
    [ JSONText.property "ip" (JSONText.quoted "192.168.1.1");
      JSONText.property "error" "true";
      JSONText.property "reason" (JSONText.quoted "Reserved IP Address") ].

End Scenarios.

(* ================================================================== *)
(** * Properties *)

(** ** Strings *)

Section StringFacts.
Local Open Scope string_scope.

Lemma length_append (a b : string) :
  String.length (a ++ b) = String.length a + String.length b.
Proof. induction a as [|x a IH]; simpl; [reflexivity | now rewrite IH]. Qed.

Lemma substring_whole (s : string) : substring 0 (String.length s) s = s.
Proof. induction s as [|c s IH]; simpl; [reflexivity | now rewrite IH]. Qed.

(** Skipping a prefix and taking what follows it. *)
Lemma substring_after_prefix (p s : string) :
  substring (String.length p) (String.length s) (p ++ s) = s.
Proof.
  induction p as [|c p IH]; simpl.
  - apply substring_whole.
  - exact IH.
Qed.

(** A string is its first [n] characters followed by the others. *)
Lemma substring_cut (s : string) :
  forall n, n <= String.length s ->
    s = substring 0 n s ++ substring n (String.length s - n) s.
Proof.
  induction s as [|c s IH]; intros n Hn.
  - destruct n; reflexivity.
  - destruct n as [|n].
    + simpl. now rewrite substring_whole.
    + simpl in *. f_equal. apply IH. lia.
Qed.

(** [endsWith] holds of the strings that are some prefix followed by
    the suffix, and of no other. *)
Lemma endsWith_iff (s suffix : string) :
  JS.endsWith s suffix = true <-> exists p, s = p ++ suffix.
Proof.
  unfold JS.endsWith. split.
  - destruct (Nat.leb_spec (String.length suffix) (String.length s))
      as [Hle|Hlt]; [|discriminate].
    intros H. apply String.eqb_eq in H.
    exists (substring 0 (String.length s - String.length suffix) s).
    pose proof (substring_cut s (String.length s - String.length suffix))
      as Hcut.
    replace (String.length s - (String.length s - String.length suffix))
      with (String.length suffix) in Hcut by lia.
    rewrite H in Hcut. apply Hcut. lia.
  - intros [p ->]. rewrite length_append.
    replace (String.length suffix <=? String.length p + String.length suffix)%nat
      with true by (symmetry; apply Nat.leb_le; lia).
    replace (String.length p + String.length suffix - String.length suffix)
      with (String.length p) by lia.
    rewrite substring_after_prefix. apply String.eqb_refl.
Qed.

Lemma free_of_append (c : ascii) (a b : string) :
  JS.free_of c (a ++ b) = JS.free_of c a && JS.free_of c b.
Proof.
  induction a as [|x a IH]; simpl; [reflexivity|].
  rewrite IH. now rewrite andb_assoc.
Qed.

(** Nothing to split in a string without the separator. *)
Lemma split_free (sep : ascii) (s : string) :
  JS.free_of sep s = true -> JS.split sep s = [s]%list.
Proof.
  induction s as [|c s IH]; simpl; [reflexivity|].
  intros H. apply andb_true_iff in H as [Hc Hs].
  apply negb_true_iff in Hc. rewrite Hc, (IH Hs). reflexivity.
Qed.

(** The first piece is what precedes the first separator. *)
Lemma split_at_first (sep : ascii) (head rest : string) :
  JS.free_of sep head = true ->
  JS.split sep (head ++ String sep rest) = (head :: JS.split sep rest)%list.
Proof.
  induction head as [|c head IH]; simpl; intros H.
  - now rewrite Ascii.eqb_refl.
  - apply andb_true_iff in H as [Hc Hs].
    apply negb_true_iff in Hc. rewrite Hc, (IH Hs). reflexivity.
Qed.

(** There is always a first piece. *)
Lemma split_not_nil (sep : ascii) (s : string) : JS.split sep s <> []%list.
Proof.
  destruct s as [|c s]; simpl; [discriminate|].
  destruct (Ascii.eqb c sep); [discriminate|].
  destruct (JS.split sep s); discriminate.
Qed.

(** Joining the pieces with the separator gives the string back. *)
Lemma split_join (sep : ascii) (s : string) :
  String.concat (String sep EmptyString) (JS.split sep s) = s.
Proof.
  induction s as [|c s IH]; [reflexivity|].
  pose proof (split_not_nil sep s) as Hne.
  simpl. destruct (Ascii.eqb_spec c sep) as [->|Hc];
    destruct (JS.split sep s) as [|piece pieces]; try contradiction.
  - change (String.concat (String sep "") ("" :: piece :: pieces)%list)
      with (String sep (String.concat (String sep "") (piece :: pieces))).
    now rewrite IH.
  - destruct pieces as [|next pieces].
    + simpl in *. now rewrite IH.
    + change (String c (String.concat (String sep "")
                          (piece :: next :: pieces)) = String c s).
      now rewrite IH.
Qed.

(** No piece holds the separator. *)
Lemma split_pieces_free (sep : ascii) (s : string) :
  Forall (fun piece => JS.free_of sep piece = true) (JS.split sep s).
Proof.
  induction s as [|c s IH]; simpl.
  - constructor; [reflexivity | constructor].
  - destruct (Ascii.eqb c sep) eqn:Hc.
    + constructor; [reflexivity | exact IH].
    + destruct (JS.split sep s) as [|piece pieces].
      * constructor; [simpl; now rewrite Hc | constructor].
      * inversion IH as [|? ? Hpiece Hpieces]; subst.
        constructor; [simpl; now rewrite Hc, Hpiece | exact Hpieces].
Qed.

(** [s.split(sep)[1]] for a string with exactly one separator. *)
Lemma split_second (sep : ascii) (head tail : string) :
  JS.free_of sep head = true -> JS.free_of sep tail = true ->
  JS.index (JS.split sep (head ++ String sep tail)) 1 = Some tail.
Proof.
  intros Hh Ht. rewrite (split_at_first _ _ _ Hh), (split_free _ _ Ht).
  reflexivity.
Qed.

End StringFacts.

(** ** Base64 *)

Section Base64Facts.
Local Open Scope string_scope.

(** The test vectors of RFC 4648, section 10. *)
Lemma encode_rfc4648_vectors :
  Base64.encode "" = ""
  /\ Base64.encode "f" = "Zg=="
  /\ Base64.encode "fo" = "Zm8="
  /\ Base64.encode "foo" = "Zm9v"
  /\ Base64.encode "foob" = "Zm9vYg=="
  /\ Base64.encode "fooba" = "Zm9vYmE="
  /\ Base64.encode "foobar" = "Zm9vYmFy".
Proof. repeat split. Qed.

(** No six-bit group is written as a comma. *)
Lemma digit_not_comma (n : N) :
  Ascii.eqb (Base64.digit n) "," = false.
Proof.
  unfold Base64.digit. generalize (N.to_nat n). intros k.
  do 64 (destruct k as [|k]; [reflexivity|]).
  reflexivity.
Qed.

Lemma encode_three (a b c : ascii) (rest : string) :
  Base64.encode (String a (String b (String c rest)))
  = String (Base64.digit (Base64.sextet0 (N_of_ascii a)))
      (String (Base64.digit
                 (Base64.sextet1 (N_of_ascii a) (N_of_ascii b)))
        (String (Base64.digit
                   (Base64.sextet2 (N_of_ascii b) (N_of_ascii c)))
          (String (Base64.digit (Base64.sextet3 (N_of_ascii c)))
            (Base64.encode rest)))).
Proof. reflexivity. Qed.

(** The three shapes [encode] distinguishes, proved together so that the
    induction can step over three bytes at once. *)
Lemma encode_free_of_comma_groups (s : string) :
  JS.free_of "," (Base64.encode s) = true
  /\ (forall a, JS.free_of "," (Base64.encode (String a s)) = true)
  /\ (forall a b,
        JS.free_of "," (Base64.encode (String a (String b s))) = true).
Proof.
  induction s as [|c s (IH0 & IH1 & IH2)].
  - repeat split; intros; simpl; rewrite !digit_not_comma; reflexivity.
  - split; [apply IH1 | split; [intros a; apply IH2 | intros a b]].
    rewrite encode_three. simpl. rewrite !digit_not_comma. exact IH0.
Qed.

(** The Base64 text of a file holds no comma. *)
Lemma encode_free_of_comma (s : string) :
  JS.free_of "," (Base64.encode s) = true.
Proof. exact (proj1 (encode_free_of_comma_groups s)). Qed.

End Base64Facts.

(** ** The content dispatcher *)

Section Dispatcher.
Import Runtime.
Local Open Scope string_scope.

(** Loading a file fills the three file cells and clears the result and
    the error; the other cells and the trace stay. *)
Lemma processFile_loads (file : Host.File) (w : World App.State) :
  FileDropZone.processFile App.handleFileLoaded file w
  = mkWorld
      (App.mkState
         (Some (FileDropZone.loadedContent file))
         (Some (FileDropZone.loadedMimeType file))
         (Some (Host.name file)) None
         (App.isLoading (cells w)) None
         (App.isAnalystMode (cells w)) (App.showQuiz (cells w)))
      (events w).
Proof. reflexivity. Qed.

(** A loaded file with content is submitted, with the payload chosen
    from the loaded content and the recorded type. *)
Lemma dispatch_events (file : Host.File) (w : World App.State) :
  JS.truthy_string (FileDropZone.loadedContent file) = true ->
  events (App.dispatch file w)
  = (events w
     ++ [App.request (App.contentsPayload (FileDropZone.loadedContent file)
                    (Some (FileDropZone.loadedMimeType file)))])%list.
Proof.
  intros Hc. unfold App.dispatch, seq. rewrite processFile_loads.
  unfold App.analyzeEmail_submit, reading. cbn [cells App.fileContent].
  rewrite Hc. reflexivity.
Qed.

(** A file without content is not submitted. *)
Lemma dispatch_nothing (file : Host.File) (w : World App.State) :
  FileDropZone.loadedContent file = "" ->
  events (App.dispatch file w) = events w
  /\ App.error (cells (App.dispatch file w)) = Some App.noContentMessage.
Proof.
  intros Hc. unfold App.dispatch, seq. rewrite processFile_loads.
  unfold App.analyzeEmail_submit, reading. cbn [cells App.fileContent].
  rewrite Hc. split; reflexivity.
Qed.

Lemma truthy_string_iff (s : string) :
  JS.truthy_string s = true <-> s <> "".
Proof.
  unfold JS.truthy_string. rewrite negb_true_iff. apply String.eqb_neq.
Qed.

(** A file declared [text/plain] is read as text and submitted as it is. *)
Lemma dispatch_text_plain (file : Host.File) (w : World App.State) :
  Host.type file = "text/plain" ->
  Host.bytes file <> "" ->
  events (App.dispatch file w)
  = (events w ++ [App.request (Text (Host.readAsText file))])%list.
Proof.
  intros Ht Hb.
  assert (Htext : FileDropZone.isText file = true).
  { unfold FileDropZone.isText. rewrite Ht, String.eqb_refl.
    now rewrite !orb_true_r. }
  assert (Hcontent :
    FileDropZone.loadedContent file = Host.readAsText file).
  { unfold FileDropZone.loadedContent. now rewrite Htext. }
  assert (Hmime : FileDropZone.loadedMimeType file = "text/plain").
  { unfold FileDropZone.loadedMimeType. rewrite Ht. reflexivity. }
  rewrite dispatch_events.
  - rewrite Hcontent, Hmime. reflexivity.
  - rewrite Hcontent. now apply truthy_string_iff.
Qed.

(** A file declared [message/rfc822] is submitted as its text when its
    name ends in [.eml] or [.txt]. *)
Lemma dispatch_rfc822_named (file : Host.File) (w : World App.State) :
  Host.type file = "message/rfc822" ->
  JS.endsWith (Host.name file) ".eml"
    || JS.endsWith (Host.name file) ".txt" = true ->
  Host.bytes file <> "" ->
  events (App.dispatch file w)
  = (events w ++ [App.request (Text (Host.readAsText file))])%list.
Proof.
  intros Ht Hn Hb.
  assert (Htext : FileDropZone.isText file = true).
  { unfold FileDropZone.isText. now rewrite Hn. }
  assert (Hcontent :
    FileDropZone.loadedContent file = Host.readAsText file).
  { unfold FileDropZone.loadedContent. now rewrite Htext. }
  assert (Hmime : FileDropZone.loadedMimeType file = "message/rfc822").
  { unfold FileDropZone.loadedMimeType. rewrite Ht. reflexivity. }
  rewrite dispatch_events.
  - rewrite Hcontent, Hmime. reflexivity.
  - rewrite Hcontent. now apply truthy_string_iff.
Qed.

(** A file declared [message/rfc822] under any other name is read as a
    data URL, and the data URL is submitted as the text. *)
Lemma dispatch_rfc822_unnamed (file : Host.File) (w : World App.State) :
  Host.type file = "message/rfc822" ->
  JS.endsWith (Host.name file) ".eml" = false ->
  JS.endsWith (Host.name file) ".txt" = false ->
  events (App.dispatch file w)
  = (events w ++ [App.request (Text (Host.readAsDataURL file))])%list.
Proof.
  intros Ht Heml Htxt.
  assert (Htext : FileDropZone.isText file = false).
  { unfold FileDropZone.isText. now rewrite Heml, Htxt, Ht. }
  assert (Hcontent :
    FileDropZone.loadedContent file = Host.readAsDataURL file).
  { unfold FileDropZone.loadedContent. now rewrite Htext. }
  assert (Hmime : FileDropZone.loadedMimeType file = "message/rfc822").
  { unfold FileDropZone.loadedMimeType. rewrite Ht. reflexivity. }
  rewrite dispatch_events.
  - rewrite Hcontent, Hmime. reflexivity.
  - rewrite Hcontent. reflexivity.
Qed.

(** A file whose name has no text suffix and whose declared type is not
    [text/plain] is loaded as a data URL. *)
Lemma binary_file_loaded_as_data_url (file : Host.File) :
  Host.type file <> "" ->
  Host.type file <> "text/plain" ->
  JS.endsWith (Host.name file) ".eml" = false ->
  JS.endsWith (Host.name file) ".txt" = false ->
  FileDropZone.loadedContent file
  = Host.dataURLHeader (Host.type file)
      ++ String "," (Base64.encode (Host.bytes file))
  /\ FileDropZone.loadedMimeType file = Host.type file.
Proof.
  intros Hdeclared Hplain Heml Htxt.
  apply String.eqb_neq in Hplain.
  apply truthy_string_iff in Hdeclared.
  unfold FileDropZone.loadedContent, FileDropZone.loadedMimeType,
    FileDropZone.isText, Host.readAsDataURL, JS.or_else.
  rewrite Heml, Htxt, Hplain, Hdeclared. split; reflexivity.
Qed.

Lemma dataURLHeader_free_of_comma (mediaType : string) :
  JS.free_of "," mediaType = true ->
  JS.free_of "," (Host.dataURLHeader mediaType) = true.
Proof.
  intros H. unfold Host.dataURLHeader.
  rewrite !free_of_append, H. reflexivity.
Qed.

End Dispatcher.

(** ** Claims on the dispatcher *)

Section DispatcherClaims.
Import Runtime.
Local Open Scope string_scope.

(** C8.  A file whose name ends in [.eml], declared [text/plain] and
    holding only the text [Subject: test], is submitted as the text
    [Subject: test] itself: the request carries the text payload, not
    inline data and not a data URL. *)
Theorem eml_example_submitted_as_text
    (fileName : string) (w : World App.State) :
  JS.endsWith fileName ".eml" = true ->
  events (App.dispatch (Host.mkFile fileName "text/plain" "Subject: test") w)
  = (events w ++ [App.request (Text "Subject: test")])%list.
Proof.
  intros _. apply (dispatch_text_plain
                     (Host.mkFile fileName "text/plain" "Subject: test")).
  - reflexivity.
  - discriminate.
Qed.

Lemma eml_example_submitted_as_text_witness :
  JS.endsWith "report.eml" ".eml" = true
  /\ events (App.dispatch Samples.emlFile Samples.fresh)
     = [App.request (Text "Subject: test")].
Proof.
  split; [reflexivity|].
  apply (eml_example_submitted_as_text "report.eml" Samples.fresh).
  reflexivity.
Defined.

(** C2, at the input where the code departs from it.  A file declared
    [message/rfc822] whose name does not end in [.eml] or [.txt] is read
    as a data URL, and that data URL is what is submitted as the text
    payload: the Base64 of the file, not its text. *)
Theorem rfc822_file_submitted_as_data_url :
  FileDropZone.isText Samples.upperCaseEml = false
  /\ events (App.dispatch Samples.upperCaseEml Samples.fresh)
     = [App.request
          (Text "data:message/rfc822;base64,U3ViamVjdDogdGVzdA==")]
  /\ Host.readAsText Samples.upperCaseEml = "Subject: test".
Proof. repeat split. Qed.

(** C4.  For a file whose declared type is empty, the type recorded for
    the dispatch is [text/plain] exactly when the name ends in [.eml] or
    in [.txt], and [application/octet-stream] otherwise. *)
Theorem untyped_file_recorded_type (file : Host.File) (w : World App.State) :
  Host.type file = "" ->
  let recorded :=
    App.fileMimeType
      (cells (FileDropZone.processFile App.handleFileLoaded file w)) in
  (recorded = Some "text/plain"
   <-> (exists p, Host.name file = p ++ ".eml")
       \/ (exists p, Host.name file = p ++ ".txt"))
  /\ (recorded = Some "text/plain"
      \/ recorded = Some "application/octet-stream").
Proof.
  intros Ht recorded. subst recorded. rewrite processFile_loads.
  cbn [cells App.fileMimeType].
  unfold FileDropZone.loadedMimeType, FileDropZone.isText.
  rewrite Ht. cbn [JS.or_else JS.truthy_string String.eqb negb orb].
  rewrite orb_false_r.
  rewrite <- !endsWith_iff.
  destruct (JS.endsWith (Host.name file) ".eml") eqn:Heml;
    destruct (JS.endsWith (Host.name file) ".txt") eqn:Htxt;
    cbn [orb]; split; try (left; reflexivity); try (right; reflexivity);
    split; intros H; try reflexivity; auto;
    try discriminate; destruct H; discriminate.
Qed.

Lemma untyped_file_recorded_type_witness :
  App.fileMimeType
    (cells (FileDropZone.processFile App.handleFileLoaded
              Samples.untypedEml Samples.fresh)) = Some "text/plain"
  /\ App.fileMimeType
       (cells (FileDropZone.processFile App.handleFileLoaded
                 Samples.untypedDump Samples.fresh))
     = Some "application/octet-stream".
Proof.
  split.
  - apply (untyped_file_recorded_type Samples.untypedEml Samples.fresh
             eq_refl).
    left. exists "mail". reflexivity.
  - destruct (untyped_file_recorded_type Samples.untypedDump Samples.fresh
                eq_refl) as [_ [H|H]]; [discriminate H | exact H].
Defined.

(** C3, at the input where the code departs from it.  A file declared
    [application/pdf] whose name ends in [.txt] is read as text by
    [processFile] and taken for binary by [analyzeEmail]: the loaded
    content has no data-URL header to strip, and the inline data
    submitted under the declared type is the piece of the text between
    its first two commas, not the Base64 of the file. *)
Theorem binary_claim_fails_on_text_suffix :
  Host.type Samples.misnamedFile <> "text/plain"
  /\ Host.type Samples.misnamedFile <> "message/rfc822"
  /\ FileDropZone.isText Samples.misnamedFile = true
  /\ App.isBinaryType (Some (Host.type Samples.misnamedFile)) = true
  /\ FileDropZone.loadedContent Samples.misnamedFile = "a,b"
  /\ Base64.encode (Host.bytes Samples.misnamedFile) = "YSxi"
  /\ events (App.dispatch Samples.misnamedFile Samples.fresh)
     = [App.request (Parts [mkInlineData "application/pdf" (Some "b")])]
  /\ events (App.dispatch Samples.misnamedFile Samples.fresh)
     <> [App.request
           (Parts [mkInlineData (Host.type Samples.misnamedFile)
                     (Some (Base64.encode
                              (Host.bytes Samples.misnamedFile)))])].
Proof. repeat split; discriminate. Qed.

(** On a declared type that holds a comma the piece taken is the rest of
    the header, not the payload. *)
Lemma binary_claim_fails_on_comma_in_type :
  FileDropZone.loadedContent Samples.commaTypedFile
  = "data:a/b,c;base64,QUJD"
  /\ events (App.dispatch Samples.commaTypedFile Samples.fresh)
     = [App.request (Parts [mkInlineData "a/b,c" (Some "c;base64")])].
Proof. split; reflexivity. Qed.

(** Where the two tests agree, the header is stripped.  For a file whose
    declared type is not empty, is neither [text/plain] nor
    [message/rfc822] and holds no comma, and whose name ends neither in
    [.eml] nor in [.txt], the loaded content is the data URL of the file,
    and the request carries, as inline data tagged with the declared
    type, exactly the Base64 payload that follows the header and its
    comma. *)
Theorem binary_file_submitted_as_inline_base64
    (file : Host.File) (w : World App.State) :
  Host.type file <> "" ->
  Host.type file <> "text/plain" ->
  Host.type file <> "message/rfc822" ->
  JS.free_of "," (Host.type file) = true ->
  JS.endsWith (Host.name file) ".eml" = false ->
  JS.endsWith (Host.name file) ".txt" = false ->
  FileDropZone.loadedContent file
  = Host.dataURLHeader (Host.type file) ++ ","
      ++ Base64.encode (Host.bytes file)
  /\ events (App.dispatch file w)
     = (events w
        ++ [App.request
              (Parts [mkInlineData (Host.type file)
                        (Some (Base64.encode (Host.bytes file)))])])%list.
Proof.
  intros Hdeclared Hplain Hrfc Hcomma Heml Htxt.
  destruct (binary_file_loaded_as_data_url file Hdeclared Hplain Heml Htxt)
    as [Hcontent Hmime].
  split; [exact Hcontent|].
  rewrite dispatch_events.
  - rewrite Hmime. unfold App.contentsPayload, App.isBinaryType.
    apply truthy_string_iff in Hdeclared.
    apply String.eqb_neq in Hplain, Hrfc.
    rewrite Hdeclared, Hplain, Hrfc. cbn [negb andb].
    rewrite Hcontent, split_second.
    + reflexivity.
    + now apply dataURLHeader_free_of_comma.
    + apply encode_free_of_comma.
  - rewrite Hcontent. reflexivity.
Qed.

Lemma binary_file_submitted_as_inline_base64_witness :
  FileDropZone.loadedContent Samples.pdfFile
  = "data:application/pdf;base64,JVBERi0xLjQ="
  /\ events (App.dispatch Samples.pdfFile Samples.fresh)
     = [App.request
          (Parts [mkInlineData "application/pdf" (Some "JVBERi0xLjQ=")])].
Proof.
  apply (binary_file_submitted_as_inline_base64
           Samples.pdfFile Samples.fresh);
    first [discriminate | reflexivity].
Defined.

End DispatcherClaims.

(** ** The response binder *)

Section Binder.
Import Runtime.
Local Open Scope string_scope.

Variable JSON_parse : string -> JS.completion JS.json.


(** So does a rejected call. *)
Lemma bindReply_rejected (reason : string) :
  App.bindReply JSON_parse (App.Rejected reason) = JS.Throw reason.
Proof. reflexivity. Qed.

(** When the [try] block throws, the handler writes the error to the
    console, sets the error cell and leaves the loading state; the result
    cell and the file cells are as they were. *)
Lemma settle_after_throw (reply : App.Reply) (e : string)
    (w : World App.State) :
  App.bindReply JSON_parse reply = JS.Throw e ->
  App.analyzeEmail_settle JSON_parse reply w
  = mkWorld
      (App.mkState (App.fileContent (cells w)) (App.fileMimeType (cells w))
         (App.fileName (cells w)) (App.analysis (cells w)) false
         (Some App.failureMessage) (App.isAnalystMode (cells w))
         (App.showQuiz (cells w)))
      (events w ++ [ConsoleError e]).
Proof.
  intros H. unfold App.analyzeEmail_settle, try_catch_finally.
  rewrite H. reflexivity.
Qed.

(** The part of [analyzeEmail] before the request, on a page with
    content. *)
Lemma submit_with_content (w : World App.State) :
  App.submits (cells w) = true ->
  exists content,
    App.fileContent (cells w) = Some content
    /\ App.analyzeEmail_submit w
       = mkWorld
           (App.mkState (App.fileContent (cells w))
              (App.fileMimeType (cells w)) (App.fileName (cells w)) None
              true None (App.isAnalystMode (cells w))
              (App.showQuiz (cells w)))
           (events w
            ++ [App.request
                  (App.contentsPayload content
                     (App.fileMimeType (cells w)))]).
Proof.
  destruct w as [[content mime name result busy err mode quiz] trace].
  unfold App.submits, App.analyzeEmail_submit, reading.
  cbn [cells events App.fileContent App.fileMimeType App.fileName
       App.isAnalystMode App.showQuiz JS.truthy_nullable].
  destruct content as [content|]; [|discriminate].
  cbn [JS.truthy_nullable].
  intros Ht. exists content. rewrite Ht. split; reflexivity.
Qed.


(** A usable reply is bound whole: the result cell is the parsed value. *)
Lemma settle_after_parse (text : string) (v : JS.json)
    (w : World App.State) :
  JS.truthy_string text = true ->
  JSON_parse text = JS.Normal v ->
  App.analyzeEmail_settle JSON_parse (App.Fulfilled (Some text)) w
  = mkWorld
      (App.mkState (App.fileContent (cells w)) (App.fileMimeType (cells w))
         (App.fileName (cells w)) (JS.nullable v) false
         (App.error (cells w)) (App.isAnalystMode (cells w))
         (App.showQuiz (cells w)))
      (events w).
Proof.
  intros Ht Hp.
  unfold App.analyzeEmail_settle, try_catch_finally, App.bindReply.
  rewrite Ht, Hp. reflexivity.
Qed.

(** A value that matches an object schema is an object that has every
    required property. *)
Lemma matches_object (properties : list (string * Schema.t))
    (required : list string) (v : JS.json) :
  Schema.matches (Schema.OBJECT properties required) v = true ->
  exists props,
    v = JS.JObj props
    /\ forall key, In key required ->
         exists fv, JS.assoc key props = Some fv.
Proof.
  destruct v as [| b | q | s | items | props]; simpl; try discriminate.
  intros H. apply andb_true_iff in H as [Hreq _].
  exists props. split; [reflexivity|].
  intros key Hin. rewrite forallb_forall in Hreq.
  specialize (Hreq key Hin).
  destruct (JS.assoc key props) as [fv|]; [now exists fv | discriminate].
Qed.

(** C6.  When the reply has a text that [JSON.parse] accepts and the
    parsed value matches the analysis schema, the binder makes that value
    the result: each of the nine top-level fields
    ([verdict], [confidence_score], [simple_analysis], [recommendations],
    [expert_analysis], [sender_metadata], [headers], [red_flags],
    [attacker_replication_code]) is present in the bound result under its
    own name and with the value the reply gave it. *)
Theorem wellformed_reply_binds_all_fields
    (text : string) (v : JS.json) (w : World App.State) :
  JS.truthy_string text = true ->
  JSON_parse text = JS.Normal v ->
  Schema.matches Schema.analysisSchema v = true ->
  let w' := App.analyzeEmail_settle JSON_parse (App.Fulfilled (Some text)) w in
  App.analysis (cells w') = Some v
  /\ (forall key, In key App.resultFields ->
        exists fv, JS.member v key = Some fv
                   /\ App.resultField (cells w') key = Some fv)
  /\ App.error (cells w') = App.error (cells w)
  /\ App.isLoading (cells w') = false.
Proof.
  intros Ht Hp Hm w'. subst w'.
  rewrite (settle_after_parse text v w Ht Hp).
  destruct (matches_object _ _ _ Hm) as (props & -> & Hreq).
  cbn [cells App.analysis App.error App.isLoading JS.nullable].
  repeat split.
  intros key Hin. destruct (Hreq key Hin) as [fv Hfv].
  exists fv. split; exact Hfv.
Qed.

End Binder.

Section BinderExamples.
Import Runtime.
Local Open Scope string_scope.



Lemma wellformed_reply_binds_all_fields_witness :
  let w' :=
    App.analyzeEmail_settle JSONText.parse
      (App.Fulfilled (Some Samples.analysisText))
      (App.analyzeEmail_submit Samples.loadedPage) in
  App.analysis (cells w') = Some Samples.analysisValue
  /\ App.resultField (cells w') "verdict" = Some (JS.JStr "Malicious")
  /\ App.resultField (cells w') "confidence_score" = Some (JS.JNum 97).
Proof.
  intros w'.
  assert (Hparse :
    JSONText.parse Samples.analysisText = JS.Normal Samples.analysisValue)
    by (vm_compute; reflexivity).
  destruct (wellformed_reply_binds_all_fields JSONText.parse
              Samples.analysisText Samples.analysisValue
              (App.analyzeEmail_submit Samples.loadedPage)
              eq_refl Hparse eq_refl)
    as (Hbound & Hfields & _).
  split; [exact Hbound|].
  split.
  - destruct (Hfields "verdict") as (fv & Hv & Hf); [simpl; auto|].
    exact (eq_trans Hf (eq_sym Hv)).
  - destruct (Hfields "confidence_score") as (fv & Hv & Hf); [simpl; auto|].
    exact (eq_trans Hf (eq_sym Hv)).
Defined.

(** C9.  The reset sets the result, the file content and the file name to
    [null] and changes no other cell: the stored type, the loading flag,
    the error, the mode and the quiz flag are as before, and nothing is
    sent or logged. *)
Theorem reset_clears_three_cells (w : World App.State) :
  let w' := App.reset w in
  App.analysis (cells w') = None
  /\ App.fileContent (cells w') = None
  /\ App.fileName (cells w') = None
  /\ App.fileMimeType (cells w') = App.fileMimeType (cells w)
  /\ App.isLoading (cells w') = App.isLoading (cells w)
  /\ App.error (cells w') = App.error (cells w)
  /\ App.isAnalystMode (cells w') = App.isAnalystMode (cells w)
  /\ App.showQuiz (cells w') = App.showQuiz (cells w)
  /\ events w' = events w.
Proof. repeat split. Qed.

End BinderExamples.

(** ** The quiz *)

Section Quiz.
Import Runtime.
Local Open Scope string_scope.

(** C5.  With a scenario loaded, a guess is judged correct exactly when
    it is the boolean the scenario gives as [is_phishing]; the score grows
    by one when it is, and stays when it is not. *)
Theorem guess_judged_by_strict_equality
    (guess label : bool) (scenario : JS.json) (w : World QuizModal.State) :
  QuizModal.quizData (cells w) = Some scenario ->
  JS.member scenario "is_phishing" = Some (JS.JBool label) ->
  let w' := QuizModal.handleGuess guess w in
  (QuizModal.result (cells w') = Some QuizModal.correct <-> guess = label)
  /\ (QuizModal.result (cells w') = Some QuizModal.wrong <-> guess <> label)
  /\ (guess = label ->
      QuizModal.score (cells w') = (QuizModal.score (cells w) + 1)%Z)
  /\ (guess <> label ->
      QuizModal.score (cells w') = QuizModal.score (cells w)).
Proof.
  destruct w as [[quiz busy verdict points] trace].
  cbn [cells QuizModal.quizData].
  intros -> Hlabel.
  destruct scenario as [| b | q | s | items | props]; try discriminate.
  unfold QuizModal.handleGuess, reading.
  cbn [cells QuizModal.quizData JS.truthy].
  rewrite Hlabel. cbn [QuizModal.strictEqualsBool].
  destruct guess, label; cbn; repeat split; intros; 
    try reflexivity; try discriminate; try congruence.
Qed.

Lemma guess_judged_by_strict_equality_witness :
  QuizModal.result (cells (QuizModal.handleGuess true Samples.quizRound))
  = Some QuizModal.correct
  /\ QuizModal.score (cells (QuizModal.handleGuess true Samples.quizRound))
     = 4%Z
  /\ QuizModal.score (cells (QuizModal.handleGuess false Samples.quizRound))
     = 3%Z.
Proof.
  destruct (guess_judged_by_strict_equality true true
              Samples.phishingScenario Samples.quizRound eq_refl eq_refl)
    as (Hcorrect & _ & Hscore & _).
  destruct (guess_judged_by_strict_equality false true
              Samples.phishingScenario Samples.quizRound eq_refl eq_refl)
    as (_ & _ & _ & Hsame).
  split; [apply Hcorrect; reflexivity|].
  split; [exact (Hscore eq_refl) | apply Hsame; discriminate].
Defined.

(** Loading the next question clears the verdict and keeps the score. *)
Lemma loadQuestion_keeps_score
    (JSON_parse : string -> JS.completion JS.json)
    (reply : QuizModal.Reply) (w : World QuizModal.State) :
  let w' := QuizModal.loadQuestion JSON_parse reply w in
  QuizModal.score (cells w') = QuizModal.score (cells w)
  /\ QuizModal.result (cells w') = None
  /\ QuizModal.loading (cells w') = false.
Proof.
  unfold QuizModal.loadQuestion, try_catch_finally, seq.
  destruct (QuizModal.bindReply JSON_parse reply) as [effects|e] eqn:Hb.
  - destruct reply as [reason | [t|]]; simpl in Hb; try discriminate.
    + destruct (JS.truthy_string t).
      * destruct (JSON_parse t); simpl in Hb; [|discriminate].
        injection Hb as <-. repeat split.
      * injection Hb as <-. repeat split.
    + injection Hb as <-. repeat split.
  - repeat split.
Qed.

End Quiz.

(** ** The geolocation lookup *)

Section Geolocation.
Import Runtime.
Local Open Scope string_scope.

Variable JSON_parse : string -> JS.completion JS.json.

(** A failing lookup makes the [try] block of [fetchGeo] throw. *)
Lemma acceptReply_throws (reply : ThreatMap.Reply) :
  ThreatMap.lookupFails JSON_parse reply = true ->
  exists e, ThreatMap.acceptReply JSON_parse reply = JS.Throw e.
Proof.
  destruct reply as [reason | ok body]; simpl.
  - intros _. now exists reason.
  - destruct ok; simpl.
    + destruct (JSON_parse body) as [data | e]; simpl.
      * destruct data; try discriminate. intros _. now eexists.
      * intros _. now exists e.
    + intros _. now eexists.
Qed.

(** What [fetchGeo] leaves behind when its [try] block throws: the
    request and one line on the console, and the position it had. *)
Lemma fetchGeo_after_throw (ip : string) (reply : ThreatMap.Reply)
    (e : string) (w : World ThreatMap.State) :
  ThreatMap.acceptReply JSON_parse reply = JS.Throw e ->
  ThreatMap.fetchGeo JSON_parse ip reply w
  = mkWorld (ThreatMap.mkState (ThreatMap.geoData (cells w)) false)
      (events w ++ [Fetch (ThreatMap.lookupURL ip);
                    ConsoleError ThreatMap.geoFailureMessage]).
Proof.
  intros H. unfold ThreatMap.fetchGeo, try_catch_finally, seq.
  rewrite H. unfold emit, ThreatMap.setLoading, set. cbn [cells events].
  rewrite <- app_assoc. reflexivity.
Qed.

(** The body of a response that is [ok] and parses to a value other than
    [null]: the position is taken when both coordinates are truthy, and
    left as it was otherwise. *)
Lemma fetchGeo_after_body (ip body : string) (data : JS.json)
    (w : World ThreatMap.State) :
  JSON_parse body = JS.Normal data ->
  data <> JS.JNull ->
  ThreatMap.fetchGeo JSON_parse ip (ThreatMap.Response true body) w
  = mkWorld
      (ThreatMap.mkState
         (if JS.truthy (JS.member data "latitude")
             && JS.truthy (JS.member data "longitude")
          then Some data else ThreatMap.geoData (cells w))
         false)
      (events w ++ [Fetch (ThreatMap.lookupURL ip)]).
Proof.
  intros Hp Hnull.
  unfold ThreatMap.fetchGeo, try_catch_finally, seq, ThreatMap.acceptReply.
  cbn [negb]. rewrite Hp. cbn [bind].
  assert (Hget : forall key,
            JS.get_prop data key = JS.Normal (JS.member data key)).
  { intros key. destruct data; try reflexivity. contradiction. }
  rewrite !Hget. cbn [bind].
  destruct (JS.truthy (JS.member data "latitude")); cbn [andb bind];
    [rewrite ?Hget; cbn [bind];
     destruct (JS.truthy (JS.member data "longitude"))|];
    reflexivity.
Qed.

(** C7, amended.  A lookup that gives no position goes no further than
    the map.  That is a lookup that fails (the [fetch] is rejected, the
    response is not [ok], or its body is no JSON text or is [null]), and
    also one whose body parses but has no truthy [latitude] or no truthy
    [longitude].  The first kind is written to the console; the second
    kind is dropped without a line.  In both, the cells of [App], and
    with them the result and the analyst view, are untouched, and the
    map keeps the view it had.  A map that has no position yet, the state
    in which [ThreatMap] is mounted, therefore shows its default: centre
    [20, 0] at zoom 2. *)
Theorem lookup_without_position_degrades_only_the_map
    (ip : string) (reply : ThreatMap.Reply) (w : World Page.State) :
  ThreatMap.skipsLookup ip = false ->
  ThreatMap.lookupFails JSON_parse reply = true
  \/ (exists body data,
        reply = ThreatMap.Response true body
        /\ JSON_parse body = JS.Normal data
        /\ data <> JS.JNull
        /\ (JS.truthy (JS.member data "latitude") = false
            \/ JS.truthy (JS.member data "longitude") = false)) ->
  let w' := Page.inThreatMap (ThreatMap.effect JSON_parse ip reply) w in
  events w'
  = (events w
     ++ Fetch (ThreatMap.lookupURL ip)
        :: (if ThreatMap.lookupFails JSON_parse reply
            then [ConsoleError "Geo fetch failed"] else []))%list
  /\ Page.app (cells w') = Page.app (cells w)
  /\ App.analysis (Page.app (cells w')) = App.analysis (Page.app (cells w))
  /\ App.showsAnalystView (Page.app (cells w'))
     = App.showsAnalystView (Page.app (cells w))
  /\ ThreatMap.geoData (Page.threatMap (cells w'))
     = ThreatMap.geoData (Page.threatMap (cells w))
  /\ ThreatMap.loading (Page.threatMap (cells w')) = false
  /\ ThreatMap.center (Page.threatMap (cells w'))
     = ThreatMap.center (Page.threatMap (cells w))
  /\ ThreatMap.zoom (Page.threatMap (cells w'))
     = ThreatMap.zoom (Page.threatMap (cells w))
  /\ (ThreatMap.geoData (Page.threatMap (cells w)) = None ->
      ThreatMap.center (Page.threatMap (cells w'))
      = (Some (JS.JNum 20), Some (JS.JNum 0))
      /\ ThreatMap.zoom (Page.threatMap (cells w')) = 2%Z
      /\ ThreatMap.showsMarker (Page.threatMap (cells w')) = false).
Proof.
  intros Hissued Hnone w'.
  assert (Hw' : w' = mkWorld
                       (Page.mkState (Page.app (cells w))
                          (ThreatMap.mkState
                             (ThreatMap.geoData (Page.threatMap (cells w)))
                             false)
                          (Page.quizModal (cells w)))
                       (events w
                        ++ Fetch (ThreatMap.lookupURL ip)
                           :: (if ThreatMap.lookupFails JSON_parse reply
                               then [ConsoleError ThreatMap.geoFailureMessage]
                               else []))).
  { subst w'. unfold Page.inThreatMap, ThreatMap.effect. rewrite Hissued.
    destruct Hnone as [Hfails | (body & data & -> & Hp & Hnull & Hfalsy)].
    - destruct (acceptReply_throws reply Hfails) as [e He].
      rewrite (fetchGeo_after_throw ip reply e _ He), Hfails. reflexivity.
    - rewrite (fetchGeo_after_body ip body data _ Hp Hnull).
      assert (Hboth : JS.truthy (JS.member data "latitude")
                      && JS.truthy (JS.member data "longitude") = false).
      { destruct Hfalsy as [H | H]; rewrite H;
          [reflexivity | apply andb_false_r]. }
      rewrite Hboth. cbn [ThreatMap.lookupFails negb orb]. rewrite Hp.
      destruct data; try reflexivity. contradiction. }
  rewrite Hw'. cbn [cells events Page.app Page.threatMap].
  do 8 (split; [reflexivity|]).
  intros Hempty.
  unfold ThreatMap.center, ThreatMap.zoom, ThreatMap.showsMarker.
  cbn [ThreatMap.geoData]. rewrite Hempty. repeat split.
Qed.

(** C10.  No lookup is issued for the empty address, for ["N/A"] and for
    ["127.0.0.1"]: the effect does nothing.  A response that is [ok], with
    a body other than [null], gives the map its position when its
    [latitude] and its [longitude] are both truthy, and only then: when
    one of them is falsy the position stays as it was.  The number [0] is
    falsy, so a position on the equator or on the prime meridian is
    dropped, and the map, which has no position yet, stays at the default,
    centre [20, 0] at zoom 2. *)
Theorem lookup_needs_address_and_truthy_coordinates
    (ip : string) (reply : ThreatMap.Reply) (w : World ThreatMap.State) :
  let w' := ThreatMap.effect JSON_parse ip reply w in
  (In ip [""; "N/A"; "127.0.0.1"] -> w' = w)
  /\ (forall body data,
        ThreatMap.skipsLookup ip = false ->
        reply = ThreatMap.Response true body ->
        JSON_parse body = JS.Normal data ->
        data <> JS.JNull ->
        (JS.truthy (JS.member data "latitude") = true
         /\ JS.truthy (JS.member data "longitude") = true ->
         ThreatMap.geoData (cells w') = Some data)
        /\ (JS.truthy (JS.member data "latitude") = false
            \/ JS.truthy (JS.member data "longitude") = false ->
            ThreatMap.geoData (cells w') = ThreatMap.geoData (cells w))
        /\ (JS.isZero (JS.member data "latitude") = true
            \/ JS.isZero (JS.member data "longitude") = true ->
            ThreatMap.geoData (cells w') = ThreatMap.geoData (cells w)
            /\ (ThreatMap.geoData (cells w) = None ->
                ThreatMap.center (cells w')
                = (Some (JS.JNum 20), Some (JS.JNum 0))
                /\ ThreatMap.zoom (cells w') = 2%Z
                /\ ThreatMap.showsMarker (cells w') = false))).
Proof.
  intros w'. split.
  - intros Hin. subst w'. unfold ThreatMap.effect.
    destruct Hin as [<- | [<- | [<- | []]]]; reflexivity.
  - intros body data Hissued -> Hp Hnull.
    assert (Hzero : forall v, JS.isZero v = true -> JS.truthy v = false).
    { intros [[| b | q | s | items | props]|]; simpl; try discriminate.
      intros ->. reflexivity. }
    assert (Hw' : w' = mkWorld
                (ThreatMap.mkState
                   (if JS.truthy (JS.member data "latitude")
                       && JS.truthy (JS.member data "longitude")
                    then Some data else ThreatMap.geoData (cells w))
                   false)
                (events w ++ [Fetch (ThreatMap.lookupURL ip)])).
    { subst w'. unfold ThreatMap.effect.
      rewrite Hissued. apply (fetchGeo_after_body ip body data w Hp Hnull). }
    assert (Hfalsy :
      JS.truthy (JS.member data "latitude") = false
      \/ JS.truthy (JS.member data "longitude") = false ->
      ThreatMap.geoData (cells w') = ThreatMap.geoData (cells w)).
    { intros [H | H]; rewrite Hw'; cbn [cells ThreatMap.geoData];
        rewrite H; [reflexivity | now rewrite andb_false_r]. }
    split; [|split].
    + intros [Hlat Hlon]. rewrite Hw'. cbn [cells ThreatMap.geoData].
      now rewrite Hlat, Hlon.
    + exact Hfalsy.
    + intros Hz.
      assert (Hsame :
        ThreatMap.geoData (cells w') = ThreatMap.geoData (cells w)).
      { apply Hfalsy. destruct Hz as [Hz | Hz]; [left | right];
          exact (Hzero _ Hz). }
      split; [exact Hsame|].
      intros Hnone.
      unfold ThreatMap.center, ThreatMap.zoom, ThreatMap.showsMarker.
      rewrite Hsame, Hnone. repeat split.
Qed.

End Geolocation.

Section GeolocationExamples.
Import Runtime.
Local Open Scope string_scope.

(** C7 as stated fails.  The response is [ok] and its body is an object
    that reports an error and holds no position: the body cannot be used,
    nothing is taken from it, and nothing is written to the console. *)
Lemma positionless_body_is_not_logged :
  let w' :=
    Page.inThreatMap
      (ThreatMap.effect JSONText.parse "192.168.1.1"
         (ThreatMap.Response true Scenarios.errorBody))
      Samples.analystPage in
  JSONText.parse Scenarios.errorBody
  = JS.Normal (JS.JObj [ ("ip", JS.JStr "192.168.1.1");
                         ("error", JS.JBool true);
                         ("reason", JS.JStr "Reserved IP Address") ])
  /\ ThreatMap.skipsLookup "192.168.1.1" = false
  /\ events w' = [Fetch "https://ipapi.co/192.168.1.1/json/"]
  /\ ~ In (ConsoleError "Geo fetch failed") (events w')
  /\ ThreatMap.geoData (Page.threatMap (cells w')) = None.
Proof.
  repeat split. intros [H | []]. discriminate H.
Qed.

Lemma lookup_without_position_degrades_only_the_map_witness :
  (let w' :=
     Page.inThreatMap
       (ThreatMap.effect JSONText.parse "203.0.113.7"
          (ThreatMap.Response false "Too Many Requests"))
       Samples.analystPage in
   events w'
   = [Fetch "https://ipapi.co/203.0.113.7/json/";
      ConsoleError "Geo fetch failed"]
   /\ App.analysis (Page.app (cells w')) = Some Samples.analysisValue
   /\ ThreatMap.center (Page.threatMap (cells w'))
      = (Some (JS.JNum 20), Some (JS.JNum 0))
   /\ ThreatMap.zoom (Page.threatMap (cells w')) = 2%Z)
  /\ (let w' :=
        Page.inThreatMap
          (ThreatMap.effect JSONText.parse "192.168.1.1"
             (ThreatMap.Response true Scenarios.errorBody))
          Samples.analystPage in
      events w' = [Fetch "https://ipapi.co/192.168.1.1/json/"]
      /\ App.analysis (Page.app (cells w')) = Some Samples.analysisValue
      /\ ThreatMap.center (Page.threatMap (cells w'))
         = (Some (JS.JNum 20), Some (JS.JNum 0))
      /\ ThreatMap.zoom (Page.threatMap (cells w')) = 2%Z).
Proof.
  split; intros w'.
  - destruct (lookup_without_position_degrades_only_the_map JSONText.parse
                "203.0.113.7" (ThreatMap.Response false "Too Many Requests")
                Samples.analystPage eq_refl (or_introl eq_refl))
      as (Hevents & _ & Hresult & _ & _ & _ & _ & _ & Hdefault).
    destruct (Hdefault eq_refl) as (Hcenter & Hzoom & _).
    split; [exact Hevents|].
    split; [exact Hresult|].
    split; [exact Hcenter | exact Hzoom].
  - assert (Hbody :
      exists body data,
        ThreatMap.Response true Scenarios.errorBody
        = ThreatMap.Response true body
        /\ JSONText.parse body = JS.Normal data
        /\ data <> JS.JNull
        /\ (JS.truthy (JS.member data "latitude") = false
            \/ JS.truthy (JS.member data "longitude") = false)).
    { exists Scenarios.errorBody. eexists.
      split; [reflexivity|].
      split; [vm_compute; reflexivity|].
      split; [discriminate | left; reflexivity]. }
    destruct (lookup_without_position_degrades_only_the_map JSONText.parse
                "192.168.1.1" (ThreatMap.Response true Scenarios.errorBody)
                Samples.analystPage eq_refl (or_intror Hbody))
      as (Hevents & _ & Hresult & _ & _ & _ & _ & _ & Hdefault).
    destruct (Hdefault eq_refl) as (Hcenter & Hzoom & _).
    split; [exact Hevents|].
    split; [exact Hresult|].
    split; [exact Hcenter | exact Hzoom].
Defined.

Lemma lookup_needs_address_and_truthy_coordinates_witness :
  ThreatMap.effect JSONText.parse "N/A"
    (ThreatMap.Response true Samples.amsterdamBody) Samples.mountedMap
  = Samples.mountedMap
  /\ ThreatMap.geoData
       (cells (ThreatMap.effect JSONText.parse "203.0.113.7"
                 (ThreatMap.Response true Samples.equatorBody)
                 Samples.mountedMap)) = None
  /\ ThreatMap.zoom
       (cells (ThreatMap.effect JSONText.parse "203.0.113.7"
                 (ThreatMap.Response true Samples.equatorBody)
                 Samples.mountedMap)) = 2%Z.
Proof.
  split.
  - apply (lookup_needs_address_and_truthy_coordinates JSONText.parse "N/A"
             (ThreatMap.Response true Samples.amsterdamBody)
             Samples.mountedMap).
    simpl. auto.
  - assert (Hparse :
      JSONText.parse Samples.equatorBody
      = JS.Normal (JS.JObj [("latitude", JS.JNum 0);
                            ("longitude", JS.JNum (25 # 2))]))
      by (vm_compute; reflexivity).
    destruct (lookup_needs_address_and_truthy_coordinates JSONText.parse
                "203.0.113.7" (ThreatMap.Response true Samples.equatorBody)
                Samples.mountedMap) as [_ Hbody].
    destruct (Hbody Samples.equatorBody _ eq_refl eq_refl Hparse
                ltac:(discriminate)) as (_ & _ & Hzero).
    destruct Hzero as (Hsame & Hdefault); [left; reflexivity|].
    destruct (Hdefault eq_refl) as (_ & Hzoom & _).
    split; [exact Hsame | exact Hzoom].
Defined.

(** A lookup that succeeds moves the map: the position of the reply at
    zoom 10, with a marker. *)
Lemma successful_lookup_moves_the_map :
  let w' :=
    ThreatMap.effect JSONText.parse "203.0.113.7"
      (ThreatMap.Response true Samples.amsterdamBody) Samples.mountedMap in
  ThreatMap.center (cells w')
  = (Some (JS.JNum (5237 # 100)), Some (JS.JNum (489 # 100)))
  /\ ThreatMap.zoom (cells w') = 10%Z
  /\ ThreatMap.showsMarker (cells w') = true.
Proof. vm_compute. repeat split. Qed.

End GeolocationExamples.

(** ** More on the dispatcher *)

Section DispatcherCoverage.
Import Runtime.
Local Open Scope string_scope.

(** [s.split(sep)[1]] is [undefined] exactly when [s] holds no [sep]. *)
Lemma split_second_none (sep : ascii) (s : string) :
  JS.index (JS.split sep s) 1 = None <-> JS.free_of sep s = true.
Proof.
  split.
  - induction s as [|c s IH]; [reflexivity|].
    simpl. destruct (Ascii.eqb c sep) eqn:Hc.
    + pose proof (split_not_nil sep s) as Hne.
      destruct (JS.split sep s); [contradiction | discriminate].
    + destruct (JS.split sep s) as [|piece pieces] eqn:Hs.
      * now destruct (split_not_nil sep s).
      * intros H. simpl. apply IH. exact H.
  - intros H. now rewrite (split_free _ _ H).
Qed.

(** The second piece does not depend on what follows the second
    separator. *)
Lemma split_second_of_three (sep : ascii) (head piece rest : string) :
  JS.free_of sep head = true -> JS.free_of sep piece = true ->
  JS.index (JS.split sep (head ++ String sep (piece ++ String sep rest))) 1
  = Some piece.
Proof.
  intros Hh Hp.
  rewrite (split_at_first _ _ _ Hh), (split_at_first _ _ _ Hp).
  reflexivity.
Qed.

(** X1.  Which form the request takes.  A loaded file with content is
    submitted as text exactly when its declared type is [text/plain] or
    [message/rfc822], or it declares no type and its name ends in [.eml]
    or [.txt]; in every other case it is submitted as one part of inline
    data, tagged with the recorded type and carrying the second
    comma-separated piece of the loaded content. *)
Theorem request_form_decided_by_type_and_suffix
    (file : Host.File) (w : World App.State) :
  FileDropZone.loadedContent file <> "" ->
  let textual :=
    (Host.type file =? "text/plain") || (Host.type file =? "message/rfc822")
    || ((Host.type file =? "")
        && (JS.endsWith (Host.name file) ".eml"
            || JS.endsWith (Host.name file) ".txt")) in
  events (App.dispatch file w)
  = (events w
     ++ [App.request
           (if textual
            then Text (FileDropZone.loadedContent file)
            else Parts
                   [mkInlineData (FileDropZone.loadedMimeType file)
                      (JS.index
                         (JS.split "," (FileDropZone.loadedContent file))
                         1)])])%list.
Proof.
  intros Hc textual. subst textual.
  rewrite dispatch_events by now apply truthy_string_iff.
  do 2 f_equal. f_equal.
  unfold App.contentsPayload, App.isBinaryType,
    FileDropZone.loadedMimeType, FileDropZone.isText, JS.or_else,
    JS.truthy_string.
  destruct (String.eqb_spec (Host.type file) "") as [He|He].
  - rewrite He. cbn [String.eqb negb orb andb].
    destruct (JS.endsWith (Host.name file) ".eml"
              || JS.endsWith (Host.name file) ".txt"); reflexivity.
  - cbn [negb andb orb].
    assert (Hne : (Host.type file =? "") = false)
      by now apply String.eqb_neq.
    rewrite Hne. cbn [negb andb].
    destruct (Host.type file =? "text/plain");
      destruct (Host.type file =? "message/rfc822"); reflexivity.
Qed.

Lemma request_form_decided_by_type_and_suffix_witness :
  events (App.dispatch Samples.untypedEml Samples.fresh)
  = [App.request (Text "Subject: hi")]
  /\ events (App.dispatch Samples.untypedDump Samples.fresh)
     = [App.request
          (Parts [mkInlineData "application/octet-stream" (Some "eHl6")])].
Proof.
  split.
  - apply (request_form_decided_by_type_and_suffix
             Samples.untypedEml Samples.fresh). discriminate.
  - apply (request_form_decided_by_type_and_suffix
             Samples.untypedDump Samples.fresh). discriminate.
Defined.

(** X2.  The type recorded for a loaded file is never [null] and never
    empty, and it is the declared type whenever the file declares one,
    also for a file that was read as text because of its name. *)
Theorem recorded_type_never_empty (file : Host.File) (w : World App.State) :
  exists m,
    App.fileMimeType
      (cells (FileDropZone.processFile App.handleFileLoaded file w)) = Some m
    /\ m <> ""
    /\ JS.truthy_nullable (Some m) = true
    /\ (Host.type file <> "" -> m = Host.type file).
Proof.
  rewrite processFile_loads. cbn [cells App.fileMimeType].
  exists (FileDropZone.loadedMimeType file).
  unfold FileDropZone.loadedMimeType, JS.or_else, JS.truthy_nullable.
  destruct (JS.truthy_string (Host.type file)) eqn:Ht.
  - pose proof (proj1 (truthy_string_iff _) Ht) as Hne.
    repeat split; auto.
  - assert (He : Host.type file = "").
    { unfold JS.truthy_string in Ht. apply negb_false_iff in Ht.
      now apply String.eqb_eq. }
    destruct (FileDropZone.isText file); repeat split;
      try discriminate; intros H; contradiction.
Qed.

(** X4.  In the binary branch the inline data is the second
    comma-separated piece of the stored content, whatever follows a
    second comma; it is [undefined] exactly when the content holds no
    comma.  The tag is the stored type. *)
Theorem inline_data_is_second_piece
    (content m : string) :
  App.isBinaryType (Some m) = true ->
  (App.contentsPayload content (Some m) = Parts [mkInlineData m None]
   <-> JS.free_of "," content = true)
  /\ (forall head piece,
        JS.free_of "," head = true -> JS.free_of "," piece = true ->
        (content = head ++ "," ++ piece ->
         App.contentsPayload content (Some m)
         = Parts [mkInlineData m (Some piece)])
        /\ (forall rest,
              content = head ++ "," ++ piece ++ "," ++ rest ->
              App.contentsPayload content (Some m)
              = Parts [mkInlineData m (Some piece)])).
Proof.
  intros Hb. unfold App.contentsPayload. rewrite Hb. split.
  - rewrite <- split_second_none. split.
    + intros H. injection H as H. exact H.
    + intros H. now rewrite H.
  - intros head piece Hh Hp. split.
    + intros ->. change (head ++ "," ++ piece)
        with (head ++ String "," piece).
      now rewrite (split_second _ _ _ Hh Hp).
    + intros rest ->.
      change (head ++ "," ++ piece ++ "," ++ rest)
        with (head ++ String "," (piece ++ String "," rest)).
      now rewrite (split_second_of_three _ _ _ rest Hh Hp).
Qed.

Lemma inline_data_is_second_piece_witness :
  App.contentsPayload "no header here" (Some "application/pdf")
  = Parts [mkInlineData "application/pdf" None]
  /\ App.contentsPayload "data:audio/mpeg;base64,SUQz,tail"
       (Some "audio/mpeg")
     = Parts [mkInlineData "audio/mpeg" (Some "SUQz")].
Proof.
  split.
  - apply (inline_data_is_second_piece "no header here" "application/pdf"
             eq_refl). reflexivity.
  - destruct (inline_data_is_second_piece
                "data:audio/mpeg;base64,SUQz,tail" "audio/mpeg" eq_refl)
      as [_ H].
    destruct (H "data:audio/mpeg;base64" "SUQz" eq_refl eq_refl)
      as [_ Hrest].
    apply (Hrest "tail"). reflexivity.
Defined.

End DispatcherCoverage.

(** ** More on the submission *)

Section SubmissionCoverage.
Import Runtime.
Local Open Scope string_scope.

Variable JSON_parse : string -> JS.completion JS.json.

Lemma requests_app (a b : list Runtime.Event) :
  Session.requests (a ++ b) = Session.requests a + Session.requests b.
Proof.
  induction a as [|e a IH]; [reflexivity|].
  destruct e; simpl; now rewrite IH.
Qed.

(** X6.  Without file content ([null] or the empty string) [analyzeEmail]
    stops at its guard: the error is the message for missing content,
    no request is sent, and every other cell (the result and the loading
    flag among them) is as before, whatever the service would have
    replied. *)
Theorem submission_without_content_is_refused
    (reply : App.Reply) (w : World App.State) :
  App.submits (cells w) = false ->
  App.analyzeEmail JSON_parse reply w
  = mkWorld
      (App.mkState (App.fileContent (cells w)) (App.fileMimeType (cells w))
         (App.fileName (cells w)) (App.analysis (cells w))
         (App.isLoading (cells w)) (Some "No file content detected.")
         (App.isAnalystMode (cells w)) (App.showQuiz (cells w)))
      (events w).
Proof.
  destruct w as [[content mime name result busy err mode quiz] trace].
  unfold App.analyzeEmail, App.submits, reading.
  cbn [cells App.fileContent]. intros H. rewrite H.
  unfold App.analyzeEmail_submit, reading. cbn [cells App.fileContent].
  destruct content as [content|]; [|reflexivity].
  cbn [JS.truthy_nullable] in H. rewrite H. reflexivity.
Qed.

(** How a settled call leaves the page, for every reply. *)
Lemma settle_cases (reply : App.Reply) (w : World App.State) :
  (exists v,
     App.bindReply JSON_parse reply
     = JS.Normal (App.setAnalysis (JS.nullable v))
     /\ App.analyzeEmail_settle JSON_parse reply w
        = mkWorld
            (App.mkState (App.fileContent (cells w))
               (App.fileMimeType (cells w)) (App.fileName (cells w))
               (JS.nullable v) false (App.error (cells w))
               (App.isAnalystMode (cells w)) (App.showQuiz (cells w)))
            (events w))
  \/ (exists e,
        App.bindReply JSON_parse reply = JS.Throw e
        /\ App.analyzeEmail_settle JSON_parse reply w
           = mkWorld
               (App.mkState (App.fileContent (cells w))
                  (App.fileMimeType (cells w)) (App.fileName (cells w))
                  (App.analysis (cells w)) false (Some App.failureMessage)
                  (App.isAnalystMode (cells w)) (App.showQuiz (cells w)))
               (events w ++ [ConsoleError e])).
Proof.
  destruct (App.bindReply JSON_parse reply) as [effects|e] eqn:Hb.
  - left. destruct reply as [reason | [t|]]; simpl in Hb; try discriminate.
    destruct (JS.truthy_string t) eqn:Ht; [|discriminate].
    destruct (JSON_parse t) as [v|e] eqn:Hp; simpl in Hb; [|discriminate].
    exists v. split; [now rewrite <- Hb|].
    apply (settle_after_parse JSON_parse t v w Ht Hp).
  - right. exists e. split; [reflexivity|].
    apply settle_after_throw.
    destruct reply as [reason | [t|]]; simpl in Hb |- *; try exact Hb.
Qed.

(** X7.  Every submission that passes the guard sends exactly one
    request and, however the call settles (fulfilled, empty, malformed or
    rejected), ends with the loading flag cleared and the file cells
    untouched.  It ends either with the error cleared, or with no result
    and the static failure message; so never with a result and an error
    together. *)
Theorem submission_outcome (reply : App.Reply) (w : World App.State) :
  App.submits (cells w) = true ->
  let w' := App.analyzeEmail JSON_parse reply w in
  App.isLoading (cells w') = false
  /\ Session.requests (events w') = S (Session.requests (events w))
  /\ App.fileContent (cells w') = App.fileContent (cells w)
  /\ App.fileMimeType (cells w') = App.fileMimeType (cells w)
  /\ App.fileName (cells w') = App.fileName (cells w)
  /\ (App.error (cells w') = None
      \/ (App.error (cells w') = Some App.failureMessage
          /\ App.analysis (cells w') = None))
  /\ (App.analysis (cells w') <> None -> App.error (cells w') = None).
Proof.
  intros Hsub w'.
  destruct (submit_with_content w Hsub) as (content & _ & Hsubmit).
  assert (Hw' : w' = App.analyzeEmail_settle JSON_parse reply
                       (App.analyzeEmail_submit w)).
  { subst w'. unfold App.analyzeEmail, reading. rewrite Hsub. reflexivity. }
  rewrite Hw'.
  destruct (settle_cases reply (App.analyzeEmail_submit w))
    as [(v & _ & ->) | (e & _ & ->)]; rewrite Hsubmit;
    cbn [cells events App.isLoading App.error App.analysis
         App.fileContent App.fileMimeType App.fileName];
    rewrite ?requests_app; simpl; rewrite ?Nat.add_0_r, ?Nat.add_1_r;
    repeat split; auto.
  - intros H. contradiction.
Qed.

(** X8.  A reply whose text parses to [null] is taken as a success: the
    result cell is set to [null], no error is set and nothing is written
    to the console, so the page is back at the input section without a
    message. *)
Theorem null_reply_binds_nothing_silently
    (text : string) (w : World App.State) :
  App.submits (cells w) = true ->
  JS.truthy_string text = true ->
  JSON_parse text = JS.Normal JS.JNull ->
  let w' := App.analyzeEmail JSON_parse (App.Fulfilled (Some text)) w in
  App.analysis (cells w') = None
  /\ App.error (cells w') = None
  /\ App.isLoading (cells w') = false
  /\ App.showsResults (cells w') = false
  /\ Session.requests (events w') = S (Session.requests (events w))
  /\ List.length (events w') = S (List.length (events w)).
Proof.
  intros Hsub Ht Hp w'.
  destruct (submit_with_content w Hsub) as (content & _ & Hsubmit).
  assert (Hw' : w' = App.analyzeEmail_settle JSON_parse
                       (App.Fulfilled (Some text))
                       (App.analyzeEmail_submit w)).
  { subst w'. unfold App.analyzeEmail, reading. rewrite Hsub. reflexivity. }
  rewrite Hw', (settle_after_parse JSON_parse text JS.JNull _ Ht Hp), Hsubmit.
  cbn [cells events App.isLoading App.error App.analysis JS.nullable].
  rewrite requests_app, List.length_app. simpl.
  rewrite Nat.add_1_r, Nat.add_1_r. repeat split.
Qed.

(** X9.  A file loaded while the request for an earlier file is
    outstanding does not cancel it: when the call is fulfilled, the
    result of the earlier file is bound next to the name, the type and
    the content of the later one, and no request for the later file has
    been sent. *)
Theorem late_reply_is_bound_to_newer_file
    (text : string) (v : JS.json) (later : Host.File)
    (w : World App.State) :
  App.submits (cells w) = true ->
  JS.truthy_string text = true ->
  JSON_parse text = JS.Normal v ->
  v <> JS.JNull ->
  let w' :=
    App.analyzeEmail_settle JSON_parse (App.Fulfilled (Some text))
      (FileDropZone.processFile App.handleFileLoaded later
         (App.analyzeEmail_submit w)) in
  App.analysis (cells w') = Some v
  /\ App.fileName (cells w') = Some (Host.name later)
  /\ App.fileContent (cells w') = Some (FileDropZone.loadedContent later)
  /\ App.fileMimeType (cells w') = Some (FileDropZone.loadedMimeType later)
  /\ App.error (cells w') = None
  /\ events w' = events (App.analyzeEmail_submit w)
  /\ Session.requests (events w') = S (Session.requests (events w)).
Proof.
  intros Hsub Ht Hp Hv w'. subst w'.
  destruct (submit_with_content w Hsub) as (content & _ & Hsubmit).
  rewrite (settle_after_parse JSON_parse text v _ Ht Hp), processFile_loads.
  cbn [cells events App.analysis App.fileName App.fileContent
       App.fileMimeType App.error].
  assert (Hn : JS.nullable v = Some v) by (destruct v; try reflexivity;
                                            contradiction).
  rewrite Hn, Hsubmit. cbn [events]. rewrite requests_app. simpl.
  rewrite Nat.add_1_r. repeat split.
Qed.

End SubmissionCoverage.

Section SubmissionExamples.
Import Runtime.
Local Open Scope string_scope.

Lemma submission_without_content_is_refused_witness :
  events (App.analyzeEmail JSONText.parse
            (App.Fulfilled (Some Samples.analysisText))
            (App.reset Samples.pageWithResult)) = []
  /\ App.error (cells (App.analyzeEmail JSONText.parse
                         (App.Fulfilled (Some Samples.analysisText))
                         (App.reset Samples.pageWithResult)))
     = Some "No file content detected.".
Proof.
  rewrite (submission_without_content_is_refused JSONText.parse
             (App.Fulfilled (Some Samples.analysisText))
             (App.reset Samples.pageWithResult) eq_refl).
  split; reflexivity.
Defined.

Lemma submission_outcome_witness :
  App.isLoading
    (cells (App.analyzeEmail JSONText.parse (App.Rejected "offline")
              Samples.loadedPage)) = false
  /\ Session.requests
       (events (App.analyzeEmail JSONText.parse (App.Rejected "offline")
                  Samples.loadedPage)) = 1.
Proof.
  destruct (submission_outcome JSONText.parse (App.Rejected "offline") Samples.loadedPage
              eq_refl) as (Hload & Hreq & _).
  split; [exact Hload | exact Hreq].
Defined.

Lemma null_reply_binds_nothing_silently_witness :
  let w' :=
    App.analyzeEmail JSONText.parse (App.Fulfilled (Some "null"))
      Samples.loadedPage in
  App.analysis (cells w') = None /\ App.error (cells w') = None.
Proof.
  intros w'.
  destruct (null_reply_binds_nothing_silently JSONText.parse "null"
              Samples.loadedPage eq_refl eq_refl eq_refl)
    as (Hresult & Herror & _).
  split; [exact Hresult | exact Herror].
Defined.

Lemma late_reply_is_bound_to_newer_file_witness :
  let w' :=
    App.analyzeEmail_settle JSONText.parse
      (App.Fulfilled (Some Samples.analysisText))
      (FileDropZone.processFile App.handleFileLoaded Scenarios.secondFile
         Scenarios.submittedPage) in
  App.analysis (cells w') = Some Samples.analysisValue
  /\ App.fileName (cells w') = Some "other.txt"
  /\ events w' = [App.request (Text "Subject: test")].
Proof.
  intros w'.
  assert (Hparse :
    JSONText.parse Samples.analysisText = JS.Normal Samples.analysisValue)
    by (vm_compute; reflexivity).
  destruct (late_reply_is_bound_to_newer_file JSONText.parse
              Samples.analysisText Samples.analysisValue
              Scenarios.secondFile Samples.loadedPage
              eq_refl eq_refl Hparse ltac:(discriminate))
    as (Hresult & Hname & _ & _ & _ & Hevents & _).
  split; [exact Hresult|]. split; [exact Hname | exact Hevents].
Defined.

(** X10.  The two buttons of the mode switch select a mode, they do not
    flip it: after [Civilian Mode] the page is in the civilian mode and
    after [SOC Analyst] in the analyst mode, whichever mode it was in, so
    a second click on the same button changes nothing.  No other cell
    changes and nothing is sent. *)
Theorem mode_buttons_select (w : World App.State) :
  App.isAnalystMode (cells (ModeToggle.clickCivilian w)) = false
  /\ App.isAnalystMode (cells (ModeToggle.clickAnalyst w)) = true
  /\ ModeToggle.clickCivilian (ModeToggle.clickCivilian w)
     = ModeToggle.clickCivilian w
  /\ ModeToggle.clickAnalyst (ModeToggle.clickAnalyst w)
     = ModeToggle.clickAnalyst w
  /\ (forall a,
        a = ModeToggle.clickCivilian \/ a = ModeToggle.clickAnalyst ->
        events (a w) = events w
        /\ App.analysis (cells (a w)) = App.analysis (cells w)
        /\ App.fileContent (cells (a w)) = App.fileContent (cells w)
        /\ App.fileMimeType (cells (a w)) = App.fileMimeType (cells w)
        /\ App.fileName (cells (a w)) = App.fileName (cells w)
        /\ App.isLoading (cells (a w)) = App.isLoading (cells w)
        /\ App.error (cells (a w)) = App.error (cells w)
        /\ App.showQuiz (cells (a w)) = App.showQuiz (cells w)).
Proof.
  destruct w as [[content mime name result busy err mode quiz] trace].
  destruct mode; do 4 (split; [reflexivity|]);
    intros a [-> | ->]; repeat split.
Qed.

End SubmissionExamples.

(** ** Sessions on the page *)

Section SessionCoverage.
Import Runtime.
Local Open Scope string_scope.

Variable JSON_parse : string -> JS.completion JS.json.

(** The actions that only touch the mode and the quiz flag. *)
Lemma invariant_on_frame (a : Action App.State) (s : Session.State) :
  App.isLoading (cells (a (Session.page s)))
  = App.isLoading (cells (Session.page s)) ->
  App.error (cells (a (Session.page s)))
  = App.error (cells (Session.page s)) ->
  App.analysis (cells (a (Session.page s)))
  = App.analysis (cells (Session.page s)) ->
  Session.invariant s -> Session.invariant (Session.onPage a s).
Proof.
  unfold Session.invariant, Session.onPage.
  cbn [Session.page Session.inFlight].
  intros -> -> ->. exact (fun H => H).
Qed.

(** Every event keeps the invariant. *)
Lemma step_keeps_invariant (s : Session.State) (e : Session.Event) :
  Session.invariant s -> Session.invariant (Session.step JSON_parse s e).
Proof.
  intros Hinv. pose proof Hinv as (Hload & Hflight & Hboth).
  destruct e as [file | | reply | | | | | ]; cbn [Session.step].
  - destruct (Session.showsInput s); [|exact Hinv].
    unfold Session.invariant, Session.onPage.
    cbn [Session.page Session.inFlight]. rewrite processFile_loads.
    cbn [cells App.isLoading App.error App.analysis].
    split; [exact Hload|]. split; [now intros _|]. now intros _.
  - destruct (Session.canRun s) eqn:Hrun; [|exact Hinv].
    unfold Session.canRun in Hrun.
    apply andb_true_iff in Hrun as [Hrun _].
    apply andb_true_iff in Hrun as [_ Hsub].
    destruct (submit_with_content (Session.page s) Hsub)
      as (content & _ & Hsubmit).
    unfold Session.invariant. cbn [Session.page Session.inFlight].
    rewrite Hsubmit. cbn [cells App.isLoading App.error App.analysis].
    split; [reflexivity|]. split; [now intros _ | now intros _].
  - destruct (Session.inFlight s) eqn:Hf; [|exact Hinv].
    destruct (Hflight eq_refl) as [Herr Hres].
    unfold Session.invariant. cbn [Session.page Session.inFlight].
    destruct (settle_cases JSON_parse reply (Session.page s))
      as [(v & _ & ->) | (e & _ & ->)];
      cbn [cells App.isLoading App.error App.analysis].
    + split; [reflexivity|]. split; [discriminate|]. now intros _.
    + split; [reflexivity|]. split; [discriminate|].
      intros H. now rewrite Hres in H.
  - destruct (App.showsResults (cells (Session.page s))); [|exact Hinv].
    unfold Session.invariant, Session.onPage.
    cbn [Session.page Session.inFlight].
    destruct s as [[[content mime name result busy err mode quiz] trace] f].
    cbn in *. split; [exact Hload|]. split; [|now intros H].
    intros Hf. destruct (Hflight Hf) as [-> _]. now split.
  - apply invariant_on_frame; [| | | exact Hinv];
      destruct s as [[[content mime name result busy err [|] quiz] trace] f];
      reflexivity.
  - apply invariant_on_frame; [| | | exact Hinv];
      destruct s as [[[content mime name result busy err [|] quiz] trace] f];
      reflexivity.
  - apply invariant_on_frame; [| | | exact Hinv]; reflexivity.
  - destruct (App.showQuiz (cells (Session.page s))); [|exact Hinv].
    apply invariant_on_frame; [| | | exact Hinv]; reflexivity.
Qed.

Lemma run_keeps_invariant (events : list Session.Event) :
  forall s, Session.invariant s ->
    Session.invariant (Session.run JSON_parse events s).
Proof.
  induction events as [|e events IH]; intros s Hinv; [exact Hinv|].
  cbn [Session.run fold_left]. apply IH. now apply step_keeps_invariant.
Qed.

Lemma initial_invariant : Session.invariant Session.initial.
Proof.
  unfold Session.invariant. cbn.
  split; [reflexivity|]. split; [discriminate|].
  intros H. now contradiction H.
Qed.

(** X11.  Through any sequence of drops, clicks and replies on the
    controls the page renders, the loading flag is set exactly while a
    request is outstanding, there is neither a result nor an error while
    one is outstanding, and the page never holds a result and an error
    together. *)
Theorem session_never_shows_result_and_error
    (events : list Session.Event) :
  let s := Session.run JSON_parse events Session.initial in
  App.isLoading (cells (Session.page s)) = Session.inFlight s
  /\ (Session.inFlight s = true ->
      App.error (cells (Session.page s)) = None
      /\ App.analysis (cells (Session.page s)) = None)
  /\ (App.analysis (cells (Session.page s)) <> None ->
      App.error (cells (Session.page s)) = None)
  /\ (App.error (cells (Session.page s)) <> None ->
      App.analysis (cells (Session.page s)) = None).
Proof.
  intros s.
  destruct (run_keeps_invariant events _ initial_invariant)
    as (Hload & Hflight & Hboth).
  fold s in Hload, Hflight, Hboth.
  split; [exact Hload|]. split; [exact Hflight|]. split; [exact Hboth|].
  intros Herr.
  destruct (App.analysis (cells (Session.page s))) as [v|] eqn:Hv;
    [|reflexivity].
  exfalso. apply Herr. apply Hboth. discriminate.
Qed.

(** An event other than a reply sends a request only when none is
    outstanding, and then one. *)
Lemma step_requests (s : Session.State) (e : Session.Event) :
  Session.invariant s ->
  Session.replies [e] = 0 ->
  let s' := Session.step JSON_parse s e in
  Session.requests (events (Session.page s'))
  + (if Session.inFlight s then 1 else 0)
  = Session.requests (events (Session.page s))
    + (if Session.inFlight s' then 1 else 0).
Proof.
  intros (Hload & _ & _) Hrep.
  destruct e as [file | | reply | | | | | ]; cbn [Session.step];
    try discriminate Hrep.
  - destruct (Session.showsInput s); reflexivity.
  - destruct (Session.canRun s) eqn:Hrun; [|reflexivity].
    unfold Session.canRun in Hrun.
    apply andb_true_iff in Hrun as [Hrun Hidle].
    apply andb_true_iff in Hrun as [_ Hsub].
    apply negb_true_iff in Hidle. rewrite Hload in Hidle.
    destruct (submit_with_content (Session.page s) Hsub)
      as (content & _ & Hsubmit).
    cbn [Session.page Session.inFlight]. rewrite Hsubmit, Hidle.
    cbn [events]. rewrite requests_app. simpl. lia.
  - destruct (App.showsResults (cells (Session.page s))); reflexivity.
  - destruct s as [[[content mime name result busy err [|] quiz] trace] f];
      reflexivity.
  - destruct s as [[[content mime name result busy err [|] quiz] trace] f];
      reflexivity.
  - reflexivity.
  - destruct (App.showQuiz (cells (Session.page s))); reflexivity.
Qed.

(** X12.  At most one request is outstanding.  From any state reached in
    a session, a sequence of drops and clicks that holds no reply sends
    no request when one is outstanding, and at most one otherwise,
    however often [Run Analysis] is clicked. *)
Theorem at_most_one_request_outstanding
    (before events : list Session.Event) :
  Session.replies events = 0 ->
  let s := Session.run JSON_parse before Session.initial in
  let s' := Session.run JSON_parse events s in
  Session.requests (Runtime.events (Session.page s'))
  <= Session.requests (Runtime.events (Session.page s))
     + (if Session.inFlight s then 0 else 1).
Proof.
  intros Hrep s s'.
  assert (Hgen : forall evs st,
            Session.invariant st -> Session.replies evs = 0 ->
            Session.requests
              (Runtime.events (Session.page (Session.run JSON_parse evs st)))
            + (if Session.inFlight st then 1 else 0)
            = Session.requests (Runtime.events (Session.page st))
              + (if Session.inFlight (Session.run JSON_parse evs st)
                 then 1 else 0)).
  { induction evs as [|e evs IH]; intros st Hinv Hr; [reflexivity|].
    cbn [Session.run fold_left].
    assert (He : Session.replies [e] = 0 /\ Session.replies evs = 0).
    { destruct e; simpl in Hr |- *; try discriminate; auto. }
    destruct He as [He Hevs].
    pose proof (IH (Session.step JSON_parse st e)
                  (step_keeps_invariant st e Hinv) Hevs) as H.
    unfold Session.run in H.
    pose proof (step_requests st e Hinv He) as H1. cbv zeta in H1.
    lia. }
  pose proof (Hgen events s
                (run_keeps_invariant before _ initial_invariant) Hrep) as H.
  fold s' in H.
  destruct (Session.inFlight s'), (Session.inFlight s); lia.
Qed.

(** A file is dropped on the input section and [Run Analysis] is
    clicked: the file is loaded, and its content is sent when there is
    some and no request is outstanding. *)
Lemma drop_then_run (s : Session.State) (file : Host.File) :
  Session.invariant s ->
  Session.showsInput s = true ->
  let loaded := Session.step JSON_parse s (Session.DropFile file) in
  let s' := Session.step JSON_parse loaded Session.RunAnalysis in
  Session.canRun loaded
  = JS.truthy_string (FileDropZone.loadedContent file)
    && negb (Session.inFlight s)
  /\ events (Session.page s')
     = (events (Session.page s)
        ++ (if Session.canRun loaded
            then [App.request
                    (App.contentsPayload (FileDropZone.loadedContent file)
                       (Some (FileDropZone.loadedMimeType file)))]
            else []))%list
  /\ App.fileContent (cells (Session.page s'))
     = Some (FileDropZone.loadedContent file)
  /\ App.fileMimeType (cells (Session.page s'))
     = Some (FileDropZone.loadedMimeType file)
  /\ App.fileName (cells (Session.page s')) = Some (Host.name file)
  /\ App.error (cells (Session.page s')) = None
  /\ (Session.canRun loaded = false -> s' = loaded).
Proof.
  intros (Hload & _ & _) Hshown loaded s'.
  assert (Hloaded : loaded
                    = Session.mkState
                        (mkWorld
                           (App.mkState
                              (Some (FileDropZone.loadedContent file))
                              (Some (FileDropZone.loadedMimeType file))
                              (Some (Host.name file)) None
                              (Session.inFlight s) None
                              (App.isAnalystMode (cells (Session.page s)))
                              (App.showQuiz (cells (Session.page s))))
                           (events (Session.page s)))
                        (Session.inFlight s)).
  { subst loaded. cbn [Session.step]. rewrite Hshown.
    unfold Session.onPage. rewrite processFile_loads, Hload. reflexivity. }
  assert (Hcan : Session.canRun loaded
                 = JS.truthy_string (FileDropZone.loadedContent file)
                   && negb (Session.inFlight s)).
  { rewrite Hloaded. reflexivity. }
  split; [exact Hcan|].
  subst s'. cbn [Session.step].
  destruct (Session.canRun loaded) eqn:Hrun.
  - symmetry in Hcan. apply andb_true_iff in Hcan as [Hcontent Hidle].
    rewrite Hloaded. cbn [Session.page].
    unfold App.analyzeEmail_submit, reading.
    cbn [cells App.fileContent]. rewrite Hcontent.
    repeat split. discriminate.
  - rewrite Hloaded. cbn [Session.page cells events App.fileContent
      App.fileMimeType App.fileName App.error].
    rewrite app_nil_r. repeat split.
Qed.

(** X3.  In a session, on a page that shows the input section, what is
    sent for a dropped file depends on the file and on whether a request
    is outstanding, and on nothing else: not on the file that was loaded
    before, not on earlier replies, not on the mode.  With no request
    outstanding, [Run Analysis] sends what it sends for the same file on
    a page on which nothing has happened yet; with one outstanding, the
    button is disabled and nothing is sent.  The three file cells are
    those of the file in both cases. *)
Theorem session_submission_depends_on_file_and_idleness
    (before : list Session.Event) (file : Host.File) :
  Session.showsInput (Session.run JSON_parse before Session.initial) = true ->
  let s := Session.run JSON_parse before Session.initial in
  let s' :=
    Session.run JSON_parse [Session.DropFile file; Session.RunAnalysis] s in
  let fresh := App.dispatch file (mkWorld App.initial []) in
  events (Session.page s')
  = (events (Session.page s)
     ++ (if Session.inFlight s then [] else events fresh))%list
  /\ App.fileContent (cells (Session.page s'))
     = App.fileContent (cells fresh)
  /\ App.fileMimeType (cells (Session.page s'))
     = App.fileMimeType (cells fresh)
  /\ App.fileName (cells (Session.page s')) = App.fileName (cells fresh)
  /\ App.fileContent (cells fresh) = Some (FileDropZone.loadedContent file)
  /\ App.fileMimeType (cells fresh) = Some (FileDropZone.loadedMimeType file)
  /\ App.fileName (cells fresh) = Some (Host.name file).
Proof.
  intros Hshown s s' fresh. fold s in Hshown.
  destruct (drop_then_run s file
              (run_keeps_invariant before _ initial_invariant) Hshown)
    as (Hcan & Hevents & Hcontent & Hmime & Hname & _ & _).
  change (Session.step JSON_parse
            (Session.step JSON_parse s (Session.DropFile file))
            Session.RunAnalysis) with s' in *.
  assert (Hfresh :
    events fresh
    = (if JS.truthy_string (FileDropZone.loadedContent file)
       then [App.request
               (App.contentsPayload (FileDropZone.loadedContent file)
                  (Some (FileDropZone.loadedMimeType file)))]
       else [])
    /\ App.fileContent (cells fresh)
       = Some (FileDropZone.loadedContent file)
    /\ App.fileMimeType (cells fresh)
       = Some (FileDropZone.loadedMimeType file)
    /\ App.fileName (cells fresh) = Some (Host.name file)).
  { subst fresh. unfold App.dispatch, seq. rewrite processFile_loads.
    unfold App.analyzeEmail_submit, reading. cbn [cells App.fileContent].
    destruct (JS.truthy_string (FileDropZone.loadedContent file));
      repeat split. }
  destruct Hfresh as (Hsent & Hc & Hm & Hn).
  rewrite Hc, Hm, Hn.
  split; [|repeat split; assumption].
  rewrite Hevents, Hcan, Hsent.
  destruct (Session.inFlight s),
    (JS.truthy_string (FileDropZone.loadedContent file)); reflexivity.
Qed.

(** X5.  A file that is read as text and has no bytes is loaded (its
    name is stored, and the empty text as its content), but the page then
    renders no [Run Analysis] button: the file cannot be submitted, no
    request is sent for it, and no error is shown. *)
Theorem empty_text_file_cannot_be_submitted
    (before : list Session.Event) (file : Host.File) :
  Session.showsInput (Session.run JSON_parse before Session.initial) = true ->
  FileDropZone.isText file = true ->
  Host.bytes file = "" ->
  let s := Session.run JSON_parse before Session.initial in
  let loaded := Session.run JSON_parse [Session.DropFile file] s in
  let s' := Session.run JSON_parse [Session.RunAnalysis] loaded in
  App.fileName (cells (Session.page loaded)) = Some (Host.name file)
  /\ App.fileContent (cells (Session.page loaded)) = Some ""
  /\ App.submits (cells (Session.page loaded)) = false
  /\ Session.canRun loaded = false
  /\ s' = loaded
  /\ events (Session.page s') = events (Session.page s)
  /\ App.error (cells (Session.page s')) = None
  /\ App.analysis (cells (Session.page s')) = None.
Proof.
  intros Hshown Htext Hbytes s loaded s'. fold s in Hshown.
  assert (He : FileDropZone.loadedContent file = "").
  { unfold FileDropZone.loadedContent, Host.readAsText.
    now rewrite Htext, Hbytes. }
  destruct (drop_then_run s file
              (run_keeps_invariant before _ initial_invariant) Hshown)
    as (Hcan & Hevents & Hcontent & _ & Hname & Herror & Hsame).
  change (Session.step JSON_parse s (Session.DropFile file))
    with loaded in *.
  change (Session.step JSON_parse loaded Session.RunAnalysis) with s' in *.
  rewrite He in Hcan, Hcontent. cbn [JS.truthy_string andb] in Hcan.
  change (Session.canRun loaded = false) in Hcan.
  specialize (Hsame Hcan).
  rewrite Hcan, app_nil_r in Hevents.
  rewrite Hsame in Hcontent, Hname, Herror |- *.
  split; [exact Hname|]. split; [exact Hcontent|].
  split; [unfold App.submits; now rewrite Hcontent|].
  split; [exact Hcan|]. split; [reflexivity|].
  split; [now rewrite <- Hsame|]. split; [exact Herror|].
  subst loaded. unfold Session.run. cbn [fold_left Session.step].
  rewrite Hshown. unfold Session.onPage. cbn [Session.page].
  now rewrite processFile_loads.
Qed.

End SessionCoverage.

Section SessionExamples.
Import Runtime.
Local Open Scope string_scope.

Lemma at_most_one_request_outstanding_witness :
  Session.requests
    (events
       (Session.page
          (Session.run JSONText.parse
             [Session.RunAnalysis; Session.RunAnalysis;
              Session.DropFile Scenarios.secondFile; Session.RunAnalysis]
             (Session.run JSONText.parse
                [Session.DropFile Samples.emlFile] Session.initial))))
  <= 1.
Proof.
  apply (at_most_one_request_outstanding JSONText.parse
           [Session.DropFile Samples.emlFile]
           [Session.RunAnalysis; Session.RunAnalysis;
            Session.DropFile Scenarios.secondFile; Session.RunAnalysis]).
  reflexivity.
Defined.

Lemma session_submission_depends_on_file_and_idleness_witness :
  (let s' :=
     Session.run JSONText.parse
       [Session.DropFile Scenarios.secondFile; Session.RunAnalysis]
       (Session.run JSONText.parse
          [Session.DropFile Samples.emlFile; Session.RunAnalysis;
           Session.Settled (App.Fulfilled None); Session.ClickAnalyst]
          Session.initial) in
   Session.requests (events (Session.page s')) = 2
   /\ App.fileName (cells (Session.page s')) = Some "other.txt")
  /\ (let s' :=
        Session.run JSONText.parse
          [Session.DropFile Scenarios.secondFile; Session.RunAnalysis]
          (Session.run JSONText.parse
             [Session.DropFile Samples.emlFile; Session.RunAnalysis]
             Session.initial) in
      events (Session.page s') = [App.request (Text "Subject: test")]
      /\ App.fileName (cells (Session.page s')) = Some "other.txt").
Proof.
  split; intros s'.
  - destruct (session_submission_depends_on_file_and_idleness
                JSONText.parse
                [Session.DropFile Samples.emlFile; Session.RunAnalysis;
                 Session.Settled (App.Fulfilled None); Session.ClickAnalyst]
                Scenarios.secondFile eq_refl)
      as (Hevents & _ & _ & Hname & _ & _ & Hfresh).
    split; [|exact (eq_trans Hname Hfresh)].
    change (Session.requests (events (Session.page s')) = 2).
    subst s'.
    exact (eq_trans (f_equal Session.requests Hevents) eq_refl).
  - destruct (session_submission_depends_on_file_and_idleness
                JSONText.parse
                [Session.DropFile Samples.emlFile; Session.RunAnalysis]
                Scenarios.secondFile eq_refl)
      as (Hevents & _ & _ & Hname & _ & _ & Hfresh).
    split; [exact Hevents | exact (eq_trans Hname Hfresh)].
Defined.

Lemma empty_text_file_cannot_be_submitted_witness :
  let s' :=
    Session.run JSONText.parse
      [Session.DropFile Scenarios.emptyNote; Session.RunAnalysis]
      Session.initial in
  events (Session.page s') = []
  /\ App.error (cells (Session.page s')) = None
  /\ App.fileName (cells (Session.page s')) = Some "empty.txt".
Proof.
  intros s'.
  destruct (empty_text_file_cannot_be_submitted JSONText.parse []
              Scenarios.emptyNote eq_refl eq_refl eq_refl)
    as (Hname & _ & _ & _ & Hsame & Hevents & Herror & _).
  split; [exact Hevents|]. split; [exact Herror|].
  exact (eq_trans (f_equal (fun st => App.fileName (cells (Session.page st)))
                     Hsame) Hname).
Defined.

End SessionExamples.

(** ** More on the quiz *)

Section QuizCoverage.
Import Runtime.
Local Open Scope string_scope.

Variable JSON_parse : string -> JS.completion JS.json.

(** X13.  A scenario that does not give a boolean under [is_phishing]
    (the property is missing, or is a string, a number or [null]) makes
    every guess wrong: the verdict is [wrong] and the score stays, for
    the guess [true] and for the guess [false] alike.  Without a
    scenario a guess does nothing. *)
Theorem guess_without_boolean_label_is_wrong
    (guess : bool) (w : World QuizModal.State) :
  (forall scenario b,
     QuizModal.quizData (cells w) = Some scenario ->
     JS.member scenario "is_phishing" <> Some (JS.JBool b)) ->
  let w' := QuizModal.handleGuess guess w in
  QuizModal.score (cells w') = QuizModal.score (cells w)
  /\ events w' = events w
  /\ (JS.truthy (QuizModal.quizData (cells w)) = true ->
      QuizModal.result (cells w') = Some QuizModal.wrong)
  /\ (JS.truthy (QuizModal.quizData (cells w)) = false -> w' = w).
Proof.
  destruct w as [[quiz busy verdict points] trace].
  cbn [cells QuizModal.quizData]. intros Hlabel.
  unfold QuizModal.handleGuess, reading. cbn [cells QuizModal.quizData].
  destruct quiz as [scenario|]; [|repeat split; discriminate].
  destruct (JS.truthy (Some scenario)) eqn:Ht;
    [|repeat split; discriminate].
  assert (Hwrong : QuizModal.strictEqualsBool guess
                     (JS.member scenario "is_phishing") = false).
  { destruct (JS.member scenario "is_phishing") as [[| b | | | |]|] eqn:Hm;
      try reflexivity.
    exfalso. exact (Hlabel scenario b eq_refl Hm). }
  rewrite Hwrong. repeat split; discriminate.
Qed.

Lemma guess_without_boolean_label_is_wrong_witness :
  QuizModal.result
    (cells (QuizModal.handleGuess true Scenarios.unlabelledRound))
  = Some QuizModal.wrong
  /\ QuizModal.result
       (cells (QuizModal.handleGuess false Scenarios.unlabelledRound))
     = Some QuizModal.wrong
  /\ QuizModal.score
       (cells (QuizModal.handleGuess false Scenarios.unlabelledRound))
     = 3%Z.
Proof.
  assert (Hlabel : forall scenario b,
            QuizModal.quizData (cells Scenarios.unlabelledRound)
            = Some scenario ->
            JS.member scenario "is_phishing" <> Some (JS.JBool b)).
  { intros scenario b H. injection H as <-. discriminate. }
  destruct (guess_without_boolean_label_is_wrong true
              Scenarios.unlabelledRound Hlabel) as (_ & _ & Htrue & _).
  destruct (guess_without_boolean_label_is_wrong false
              Scenarios.unlabelledRound Hlabel) as (Hscore & _ & Hfalse & _).
  split; [exact (Htrue eq_refl)|].
  split; [exact (Hfalse eq_refl) | exact Hscore].
Defined.

(** [loadQuestion] is its two halves, one after the other. *)
Lemma loadQuestion_in_two_steps (reply : QuizModal.Reply)
    (w : World QuizModal.State) :
  QuizModal.loadQuestion JSON_parse reply w
  = QuizSession.settleQuestion JSON_parse reply
      (QuizSession.requestQuestion w).
Proof. reflexivity. Qed.

(** How a settled question leaves the modal. *)
Lemma settleQuestion_cases (reply : QuizModal.Reply)
    (w : World QuizModal.State) :
  let w' := QuizSession.settleQuestion JSON_parse reply w in
  QuizModal.loading (cells w') = false
  /\ QuizModal.result (cells w') = QuizModal.result (cells w)
  /\ QuizModal.score (cells w') = QuizModal.score (cells w)
  /\ (QuizModal.quizData (cells w') = QuizModal.quizData (cells w)
      \/ exists t v,
           reply = QuizModal.Fulfilled (Some t)
           /\ JS.truthy_string t = true
           /\ JSON_parse t = JS.Normal v
           /\ QuizModal.quizData (cells w') = JS.nullable v).
Proof.
  unfold QuizSession.settleQuestion, try_catch_finally, seq.
  destruct reply as [reason | [t|]]; cbn [QuizModal.bindReply].
  - repeat split. now left.
  - destruct (JS.truthy_string t) eqn:Ht.
    + destruct (JSON_parse t) as [v|e] eqn:Hp; cbn [bind].
      * repeat split. right. exists t, v. repeat split; assumption.
      * repeat split. now left.
    + repeat split. now left.
  - repeat split. now left.
Qed.

(** X14.  A question that cannot be loaded leaves the modal without a
    scenario, so that it shows its failure line: this holds when the
    call is rejected, when the reply has no text or an empty one, and
    when the text does not parse.  The score is kept, the verdict is
    cleared and the loading state is left.  A rejected call and a text
    that does not parse are written to the console; a missing or empty
    text is not. *)
Theorem failed_question_leaves_no_scenario
    (reply : QuizModal.Reply) (w : World QuizModal.State) :
  (forall t v, reply = QuizModal.Fulfilled (Some t) ->
     JS.truthy_string t = true -> JSON_parse t <> JS.Normal v) ->
  let w' := QuizModal.loadQuestion JSON_parse reply w in
  QuizModal.quizData (cells w') = None
  /\ QuizModal.result (cells w') = None
  /\ QuizModal.loading (cells w') = false
  /\ QuizModal.score (cells w') = QuizModal.score (cells w)
  /\ exists logged,
       events w' = (events (QuizSession.requestQuestion w) ++ logged)%list
       /\ (logged = []%list
           <-> exists text,
                 reply = QuizModal.Fulfilled text
                 /\ JS.truthy_nullable text = false)
       /\ (logged = []%list \/ exists e, logged = [ConsoleError e]).
Proof.
  intros Hbad w'. subst w'.
  destruct w as [[quiz busy verdict points] trace].
  unfold QuizModal.loadQuestion, try_catch_finally, seq.
  destruct reply as [reason | [t|]]; cbn [QuizModal.bindReply].
  - do 4 (split; [reflexivity|]).
    exists [ConsoleError reason]. split; [reflexivity|]. split.
    + split; [discriminate | intros (text & H & _); discriminate].
    + right. now exists reason.
  - destruct (JS.truthy_string t) eqn:Ht.
    + destruct (JSON_parse t) as [v|e] eqn:Hp.
      * exfalso. exact (Hbad t v eq_refl Ht Hp).
      * cbn [bind]. do 4 (split; [reflexivity|]).
        exists [ConsoleError e]. split; [reflexivity|]. split.
        -- split; [discriminate|].
           intros (text & H & Hf). injection H as <-.
           cbn [JS.truthy_nullable] in Hf. congruence.
        -- right. now exists e.
    + do 4 (split; [reflexivity|]).
      exists []%list. split; [cbn; now rewrite app_nil_r|]. split.
      * split; [|reflexivity]. intros _. exists (Some t). now split.
      * now left.
  - do 4 (split; [reflexivity|]).
    exists []%list. split; [cbn; now rewrite app_nil_r|]. split.
    + split; [|reflexivity]. intros _. exists None. now split.
    + now left.
Qed.

(** Every event keeps the invariant of the quiz. *)
Lemma quiz_step_keeps_invariant (s : QuizSession.State)
    (e : QuizSession.Event) :
  QuizSession.invariant s ->
  QuizSession.invariant (QuizSession.step JSON_parse s e).
Proof.
  intros Hinv. pose proof Hinv as (Hload & Hpending & Hpos & Hbound).
  destruct e as [guess | | reply]; cbn [QuizSession.step].
  - destruct (QuizSession.canGuess s) eqn:Hcan; [|exact Hinv].
    unfold QuizSession.canGuess, QuizSession.showsScenario,
      QuizSession.judged in Hcan.
    destruct s as [[[quiz busy verdict points] trace] pend n].
    cbn [QuizSession.modal QuizSession.pending QuizSession.shown cells
         QuizModal.loading QuizModal.quizData QuizModal.result
         QuizModal.score] in *.
    apply andb_true_iff in Hcan as [Hshow Hjudged].
    apply andb_true_iff in Hshow as [Hbusy Hquiz].
    apply negb_true_iff in Hbusy. subst busy.
    destruct verdict; [discriminate|].
    destruct quiz as [scenario|]; [|discriminate].
    unfold QuizSession.invariant, QuizSession.canGuess,
      QuizSession.showsScenario, QuizSession.judged,
      QuizModal.handleGuess, reading.
    cbn [QuizSession.modal QuizSession.pending QuizSession.shown cells
         QuizModal.quizData].
    rewrite Hquiz.
    destruct (QuizModal.strictEqualsBool guess
                (JS.member scenario "is_phishing"));
      cbn; rewrite ?andb_false_r;
      (split; [reflexivity|]);
      (split; [intros Hp; rewrite Hp in Hbusy; discriminate|]);
      split; lia.
  - destruct (QuizSession.canAdvance s) eqn:Hcan; [|exact Hinv].
    destruct s as [[[quiz busy verdict points] trace] pend n].
    unfold QuizSession.invariant, QuizSession.canGuess,
      QuizSession.showsScenario, QuizSession.judged in *.
    cbn in *. repeat split; auto.
    destruct (negb busy && JS.truthy quiz &&
              negb match verdict with Some _ => true | None => false end);
      lia.
  - destruct (QuizSession.pending s) eqn:Hp; [|exact Hinv].
    destruct (Hpending eq_refl) as [Hquiz Hres].
    assert (Hidle : QuizSession.canGuess s = false).
    { unfold QuizSession.canGuess, QuizSession.showsScenario.
      now rewrite Hload. }
    rewrite Hidle in Hbound.
    pose proof (settleQuestion_cases reply (QuizSession.modal s))
      as (Hl & Hr & Hs & Hq).
    unfold QuizSession.invariant, QuizSession.canGuess,
      QuizSession.showsScenario, QuizSession.judged.
    cbn [QuizSession.modal QuizSession.pending QuizSession.shown].
    cbv zeta in Hl, Hr, Hs, Hq.
    rewrite Hl, Hr, Hs, Hres. cbn [negb andb].
    split; [reflexivity|]. split; [discriminate|]. split; [exact Hpos|].
    rewrite andb_true_r.
    destruct (JS.truthy
                (QuizModal.quizData
                   (cells (QuizSession.settleQuestion JSON_parse reply
                             (QuizSession.modal s))))); lia.
Qed.

(** X15.  In the quiz a scenario is scored at most once.  Through any
    sequence of guesses, [NEXT ROUND] clicks and replies on the controls
    the modal renders, starting from its mount, the score is never
    negative and never above the number of scenarios shown; it is below
    that number while the scenario on display is still unanswered.  The
    loading flag is set exactly while a question is being fetched. *)
Theorem score_bounded_by_scenarios_shown
    (events : list QuizSession.Event) :
  let s := QuizSession.run JSON_parse events QuizSession.mounted in
  (0 <= QuizModal.score (cells (QuizSession.modal s)))%Z
  /\ (QuizModal.score (cells (QuizSession.modal s))
      <= QuizSession.shown s)%Z
  /\ (QuizSession.canGuess s = true ->
      (QuizModal.score (cells (QuizSession.modal s))
       < QuizSession.shown s)%Z)
  /\ QuizModal.loading (cells (QuizSession.modal s)) = QuizSession.pending s.
Proof.
  intros s.
  assert (Hinv : QuizSession.invariant s).
  { subst s. generalize QuizSession.mounted,
      (conj (eq_refl true)
         (conj (fun _ : true = true => conj (eq_refl (@None JS.json))
                                        (eq_refl (@None QuizModal.Verdict)))
            (conj (Z.le_refl 0) (Z.le_refl 0)))
       : QuizSession.invariant QuizSession.mounted).
    induction events as [|e events IH]; intros st Hst; [exact Hst|].
    cbn [QuizSession.run fold_left]. apply IH.
    now apply quiz_step_keeps_invariant. }
  destruct Hinv as (Hload & _ & Hpos & Hbound).
  split; [exact Hpos|].
  destruct (QuizSession.canGuess s); repeat split; auto; try lia;
    discriminate.
Qed.

End QuizCoverage.

Section QuizExamples.
Import Runtime.
Local Open Scope string_scope.

Lemma failed_question_leaves_no_scenario_witness :
  QuizModal.quizData
    (cells (QuizModal.loadQuestion JSONText.parse
              (QuizModal.Fulfilled (Some Samples.malformedText))
              Samples.quizRound)) = None
  /\ QuizModal.score
       (cells (QuizModal.loadQuestion JSONText.parse
                 (QuizModal.Fulfilled (Some Samples.malformedText))
                 Samples.quizRound)) = 3%Z.
Proof.
  assert (Hbad : forall t v,
            QuizModal.Fulfilled (Some Samples.malformedText)
            = QuizModal.Fulfilled (Some t) ->
            JS.truthy_string t = true -> JSONText.parse t <> JS.Normal v).
  { intros t v H _. injection H as <-. discriminate. }
  destruct (failed_question_leaves_no_scenario JSONText.parse
              (QuizModal.Fulfilled (Some Samples.malformedText))
              Samples.quizRound Hbad) as (Hquiz & _ & _ & Hscore & _).
  split; [exact Hquiz | exact Hscore].
Defined.

(** Two guesses on one scenario, then the next round: one point. *)
Lemma double_guess_scores_once :
  let s :=
    QuizSession.run JSONText.parse
      [ QuizSession.Settled (QuizModal.Fulfilled (Some Scenarios.scenarioText));
        QuizSession.Guess true; QuizSession.Guess true;
        QuizSession.NextRound;
        QuizSession.Settled (QuizModal.Rejected "offline");
        QuizSession.Guess true ]
      QuizSession.mounted in
  QuizModal.score (cells (QuizSession.modal s)) = 1%Z
  /\ QuizSession.shown s = 1%Z.
Proof. vm_compute. split; reflexivity. Qed.

End QuizExamples.

(** ** The views, the tiles and the drop zone *)

Section ViewCoverage.
Import Runtime.
Local Open Scope string_scope.

Local Ltac views_table :=
  cbn; repeat split; intros;
  repeat match goal with H : _ /\ _ |- _ => destruct H end;
  try discriminate; try reflexivity; auto.

(** The title, the colours and the icon for each verdict. *)
Lemma civilian_style_table (result : JS.json) :
  (Views.verdictIs result "Clean" = true ->
   Views.title result = "Safe to Open"
   /\ Views.titleColor result = "text-emerald-400"
   /\ CivilianView.icon result = CivilianView.checkMark)
  /\ (Views.verdictIs result "Malicious" = true ->
      Views.title result = "Do Not Open"
      /\ Views.titleColor result = "text-red-400"
      /\ CivilianView.icon result = CivilianView.siren)
  /\ (Views.verdictIs result "Suspicious" = true ->
      Views.title result = "Be Careful"
      /\ Views.titleColor result = "text-amber-400"
      /\ CivilianView.icon result = CivilianView.warningSign)
  /\ (Views.title result = "Be Careful"
      /\ Views.titleColor result = "text-emerald-400"
      <-> Views.verdictIs result "Clean" = false
          /\ Views.verdictIs result "Malicious" = false
          /\ Views.verdictIs result "Suspicious" = false)
  /\ (Views.verdictIs result "Clean" = false ->
      Views.verdictIs result "Malicious" = false ->
      Views.verdictIs result "Suspicious" = false ->
      Views.bgGradient result = "from-green-500/20 to-emerald-500/5"
      /\ CivilianView.icon result = CivilianView.checkMark).
Proof.
  unfold Views.title, Views.titleColor, Views.bgGradient,
    CivilianView.icon, Views.isMalicious, Views.isSuspicious,
    Views.verdictIs.
  destruct (JS.member result "verdict") as [[| b | q | v | items | props]|];
    try (now views_table).
  destruct (String.eqb_spec v "Clean") as [->|Hc]; [now views_table|].
  destruct (String.eqb_spec v "Malicious") as [->|Hm]; [now views_table|].
  destruct (String.eqb_spec v "Suspicious") as [->|Hs]; [now views_table|].
  now views_table.
Qed.

(** What [CivilianView] has read when it returns. *)
Lemma civilian_render_reads (result : JS.json) (card : CivilianView.Card) :
  CivilianView.render result = JS.Normal card ->
  exists simple recommendations dos donts,
    JS.member result "simple_analysis" = Some simple
    /\ simple <> JS.JNull
    /\ JS.member result "recommendations" = Some recommendations
    /\ recommendations <> JS.JNull
    /\ JS.member recommendations "do" = Some (JS.JArr dos)
    /\ JS.member recommendations "dont" = Some (JS.JArr donts)
    /\ card
       = CivilianView.mkCard (Views.bgGradient result)
           (CivilianView.icon result) (Views.titleColor result)
           (Views.title result) (JS.member simple "explanation") dos donts.
Proof.
  unfold CivilianView.render.
  assert (Hget : forall v key, v <> JS.JNull ->
            JS.get_prop v key = JS.Normal (JS.member v key)).
  { intros v key Hv. destruct v; try reflexivity. contradiction. }
  destruct (JS.get_prop result "verdict") as [verdict|e] eqn:Hverdict;
    cbn [Runtime.bind]; [|discriminate].
  assert (Hresult : result <> JS.JNull) by (intros ->; discriminate).
  rewrite !(Hget result) by exact Hresult. cbn [Runtime.bind].
  destruct (JS.member result "simple_analysis") as [simple|] eqn:H1;
    cbn [CivilianView.read Runtime.bind]; [|discriminate].
  destruct (JS.get_prop simple "explanation") as [text|e] eqn:Hsimple;
    cbn [Runtime.bind]; [|discriminate].
  assert (Hs : simple <> JS.JNull) by (intros ->; discriminate).
  rewrite (Hget simple _ Hs) in Hsimple. injection Hsimple as <-.
  destruct (JS.member result "recommendations") as [recommendations|]
    eqn:H3; cbn [CivilianView.read Runtime.bind]; [|discriminate].
  destruct (JS.get_prop recommendations "do") as [dos|e] eqn:Hdo;
    cbn [Runtime.bind]; [|discriminate].
  assert (Hr : recommendations <> JS.JNull) by (intros ->; discriminate).
  rewrite (Hget recommendations _ Hr) in Hdo. injection Hdo as <-.
  rewrite (Hget recommendations _ Hr). cbn [Runtime.bind].
  destruct (JS.member recommendations "do")
    as [[| | | | dos |]|] eqn:H5; cbn [CivilianView.items Runtime.bind];
    try discriminate.
  destruct (JS.member recommendations "dont")
    as [[| | | | donts |]|] eqn:H6; cbn [CivilianView.items Runtime.bind];
    try discriminate.
  intros H. injection H as <-.
  exists simple, recommendations, dos, donts. repeat split; auto.
Qed.

(** X16.  The title and the colours of [CivilianView] follow two
    separate tests of the verdict.  Whenever the component function
    returns, they agree on the three verdicts of the schema: [Clean]
    gives [Safe to Open] on green with the check mark, [Malicious] gives
    [Do Not Open] on red with the siren, [Suspicious] gives [Be Careful]
    on amber with the warning sign.  On any other verdict (another
    string, a missing property, a value that is not a string) the title
    is [Be Careful] but the colours and the icon are those of a clean
    file; this pairing occurs for no verdict of the schema. *)
Theorem civilian_view_disagrees_outside_the_enumeration
    (result : JS.json) (card : CivilianView.Card) :
  CivilianView.render result = JS.Normal card ->
  (Views.verdictIs result "Clean" = true ->
   CivilianView.cardTitle card = "Safe to Open"
   /\ CivilianView.cardTitleColor card = "text-emerald-400"
   /\ CivilianView.cardIcon card = CivilianView.checkMark)
  /\ (Views.verdictIs result "Malicious" = true ->
      CivilianView.cardTitle card = "Do Not Open"
      /\ CivilianView.cardTitleColor card = "text-red-400"
      /\ CivilianView.cardIcon card = CivilianView.siren)
  /\ (Views.verdictIs result "Suspicious" = true ->
      CivilianView.cardTitle card = "Be Careful"
      /\ CivilianView.cardTitleColor card = "text-amber-400"
      /\ CivilianView.cardIcon card = CivilianView.warningSign)
  /\ (CivilianView.cardTitle card = "Be Careful"
      /\ CivilianView.cardTitleColor card = "text-emerald-400"
      <-> Views.verdictIs result "Clean" = false
          /\ Views.verdictIs result "Malicious" = false
          /\ Views.verdictIs result "Suspicious" = false)
  /\ (Views.verdictIs result "Clean" = false ->
      Views.verdictIs result "Malicious" = false ->
      Views.verdictIs result "Suspicious" = false ->
      CivilianView.cardBackground card
      = "from-green-500/20 to-emerald-500/5"
      /\ CivilianView.cardIcon card = CivilianView.checkMark).
Proof.
  intros Hrender.
  destruct (civilian_render_reads result card Hrender)
    as (simple & recommendations & dos & donts & _ & _ & _ & _ & _ & _ & ->).
  cbn [CivilianView.cardTitle CivilianView.cardTitleColor
       CivilianView.cardIcon CivilianView.cardBackground].
  exact (civilian_style_table result).
Qed.

Lemma civilian_view_disagrees_outside_the_enumeration_witness :
  exists card,
    CivilianView.render Scenarios.oddResult = JS.Normal card
    /\ CivilianView.cardTitle card = "Be Careful"
    /\ CivilianView.cardTitleColor card = "text-emerald-400".
Proof.
  eexists. split; [reflexivity|].
  apply (civilian_view_disagrees_outside_the_enumeration
           Scenarios.oddResult _ eq_refl).
  repeat split.
Defined.

(** X20.  [CivilianView] returns exactly for the results whose
    [simple_analysis] and [recommendations] are there and not [null] and
    whose [recommendations.do] and [recommendations.dont] are arrays; on
    every other result it throws a [TypeError] while reading it.  The
    schema asks for the nine top-level fields only, so a reply that
    matches it can still make the view throw. *)
Theorem civilian_view_returns_iff (result : JS.json) :
  ((exists card, CivilianView.render result = JS.Normal card)
   <-> exists simple recommendations dos donts,
         JS.member result "simple_analysis" = Some simple
         /\ simple <> JS.JNull
         /\ JS.member result "recommendations" = Some recommendations
         /\ recommendations <> JS.JNull
         /\ JS.member recommendations "do" = Some (JS.JArr dos)
         /\ JS.member recommendations "dont" = Some (JS.JArr donts))
  /\ ((forall card, CivilianView.render result <> JS.Normal card)
      -> CivilianView.render result = JS.Throw "TypeError")
  /\ Schema.matches Schema.analysisSchema Scenarios.sparseResult = true
  /\ CivilianView.render Scenarios.sparseResult = JS.Throw "TypeError".
Proof.
  split; [split|].
  - intros [card Hcard].
    destruct (civilian_render_reads result card Hcard)
      as (simple & recommendations & dos & donts
          & H1 & H2 & H3 & H4 & H5 & H6 & _).
    exists simple, recommendations, dos, donts. repeat split; assumption.
  - intros (simple & recommendations & dos & donts
            & H1 & H2 & H3 & H4 & H5 & H6).
    assert (Hresult : result <> JS.JNull).
    { intros ->. discriminate. }
    eexists. unfold CivilianView.render.
    destruct result; try contradiction; cbn [JS.get_prop Runtime.bind];
      rewrite H1, H3; cbn [CivilianView.read];
      destruct simple; try contradiction;
      destruct recommendations; try contradiction;
      cbn [JS.get_prop Runtime.bind]; rewrite H5, H6;
      cbn [CivilianView.items Runtime.bind]; reflexivity.
  - split; [|split; reflexivity].
    intros Hnone. unfold CivilianView.render in *.
    destruct result; cbn [JS.get_prop Runtime.bind] in *;
      try reflexivity;
      match goal with
      | |- context [CivilianView.read ?v _] =>
          destruct v as [[| | | | |]|]
      end; cbn in *; try reflexivity;
      repeat match goal with
      | |- context [JS.assoc ?k ?l] =>
          destruct (JS.assoc k l) as [[| | | | |]|]; cbn in *;
          try reflexivity
      end; exfalso; eapply Hnone; reflexivity.
Qed.

Lemma civilian_view_returns_iff_witness :
  (exists card, CivilianView.render Scenarios.oddResult = JS.Normal card)
  /\ CivilianView.render Scenarios.sparseResult = JS.Throw "TypeError".
Proof.
  split.
  - apply (proj1 (civilian_view_returns_iff Scenarios.oddResult)).
    do 4 eexists.
    repeat split; try reflexivity; discriminate.
  - apply (proj1 (proj2 (civilian_view_returns_iff Scenarios.sparseResult))).
    intros card. discriminate.
Defined.

Lemma fromCharCode_cases (r : Z) :
  (r = 0 \/ r = 1 \/ r = 2)%Z ->
  Tiles.fromCharCode (97 + r)
  = if (r =? 0)%Z then "a" else if (r =? 1)%Z then "b" else "c".
Proof. intros [-> | [-> | ->]]; reflexivity. Qed.

(** X17.  For tile coordinates whose sum is not negative the provider
    addresses one of the three hosts [a], [b] and [c] of the tile
    service, chosen by the remainder of [x + y + z] by three, and the
    path is [dark_all/z/x/y@2x.png]; so three tiles next to each other
    in a row are asked of three different hosts. *)
Theorem provider_uses_three_hosts (x y z : Z) :
  (0 <= x + y + z)%Z ->
  let host :=
    if ((x + y + z) mod 3 =? 0)%Z then "a"
    else if ((x + y + z) mod 3 =? 1)%Z then "b" else "c" in
  Tiles.provider x y z
  = "https://" ++ host ++ ".basemaps.cartocdn.com/dark_all/"
      ++ Tiles.decimal z ++ "/" ++ Tiles.decimal x ++ "/"
      ++ Tiles.decimal y ++ "@2x.png"
  /\ Tiles.subdomainCode x y z <> Tiles.subdomainCode (x + 1) y z
  /\ Tiles.subdomainCode x y z <> Tiles.subdomainCode (x + 2) y z
  /\ Tiles.subdomainCode (x + 1) y z <> Tiles.subdomainCode (x + 2) y z
  /\ Tiles.subdomainCode x y z = Tiles.subdomainCode (x + 3) y z.
Proof.
  intros Hsum host. subst host.
  assert (Hrem : forall n, (0 <= n)%Z -> Z.rem n 3 = (n mod 3)%Z)
    by (intros n Hn; apply Z.rem_mod_nonneg; lia).
  unfold Tiles.provider, Tiles.subdomainCode.
  rewrite !Hrem by lia.
  pose proof (Z.mod_pos_bound (x + y + z) 3 ltac:(lia)) as Hbound.
  split.
  - rewrite fromCharCode_cases by lia. reflexivity.
  - replace (x + 1 + y + z)%Z with (x + y + z + 1)%Z by lia.
    replace (x + 2 + y + z)%Z with (x + y + z + 2)%Z by lia.
    replace (x + 3 + y + z)%Z with (x + y + z + 1 * 3)%Z by lia.
    rewrite Z.mod_add by lia.
    pose proof (Z.mod_pos_bound (x + y + z + 1) 3 ltac:(lia)).
    pose proof (Z.mod_pos_bound (x + y + z + 2) 3 ltac:(lia)).
    pose proof (Z.div_mod (x + y + z) 3 ltac:(lia)).
    pose proof (Z.div_mod (x + y + z + 1) 3 ltac:(lia)).
    pose proof (Z.div_mod (x + y + z + 2) 3 ltac:(lia)).
    repeat split; lia.
Qed.

Lemma provider_uses_three_hosts_witness :
  Tiles.provider 5 3 4
  = "https://a.basemaps.cartocdn.com/dark_all/4/5/3@2x.png"
  /\ Tiles.provider 6 3 4
     = "https://b.basemaps.cartocdn.com/dark_all/4/6/3@2x.png".
Proof.
  split.
  - apply (provider_uses_three_hosts 5 3 4). discriminate.
  - apply (provider_uses_three_hosts 6 3 4). discriminate.
Defined.

(** A drop of several files loads the first and ignores the others; a
    drop of none loads nothing.  Either way the drag highlight ends.  A
    file chosen through the input is loaded in the same way. *)
Lemma drop_loads_first_file_only
    (file : Host.File) (others : list Host.File)
    (w : World Upload.State) :
  Upload.handleDrop (file :: others) w = Upload.handleDrop [file] w
  /\ Upload.isDragging (cells (Upload.handleDrop (file :: others) w))
     = false
  /\ Upload.app (cells (Upload.handleDrop (file :: others) w))
     = cells (FileDropZone.processFile App.handleFileLoaded file
                (mkWorld (Upload.app (cells w)) (events w)))
  /\ Upload.app (cells (Upload.handleFileInput (file :: others) w))
     = Upload.app (cells (Upload.handleDrop (file :: others) w))
  /\ Upload.app (cells (Upload.handleDrop [] w)) = Upload.app (cells w)
  /\ Upload.isDragging (cells (Upload.handleDrop [] w)) = false
  /\ Upload.handleFileInput [] w = w.
Proof. repeat split. Qed.

End ViewCoverage.

(** ** More on the map *)

Section MapCoverage.
Import Runtime.
Local Open Scope string_scope.

Variable JSON_parse : string -> JS.completion JS.json.

(** X18.  A lookup that is issued and answered [ok] with a body whose
    [latitude] and [longitude] are both truthy moves the map: its centre
    is the pair of the two values as the body gives them, at zoom 10,
    with the marker; one request has been sent, to the address of the
    lookup, nothing is written to the console and the loading state is
    left. *)
Theorem successful_lookup_positions_the_map
    (ip body : string) (data : JS.json) (w : World ThreatMap.State) :
  ThreatMap.skipsLookup ip = false ->
  JSON_parse body = JS.Normal data ->
  JS.truthy (JS.member data "latitude") = true ->
  JS.truthy (JS.member data "longitude") = true ->
  let w' :=
    ThreatMap.effect JSON_parse ip (ThreatMap.Response true body) w in
  ThreatMap.center (cells w')
  = (JS.member data "latitude", JS.member data "longitude")
  /\ ThreatMap.zoom (cells w') = 10%Z
  /\ ThreatMap.showsMarker (cells w') = true
  /\ ThreatMap.loading (cells w') = false
  /\ events w'
     = (events w ++ [Fetch ("https://ipapi.co/" ++ ip ++ "/json/")])%list.
Proof.
  intros Hissued Hp Hlat Hlon w'. subst w'.
  assert (Hnull : data <> JS.JNull) by (intros ->; discriminate).
  assert (Hobj : JS.truthy (Some data) = true).
  { destruct data as [| b | q | s | items | props]; try discriminate.
    reflexivity. }
  unfold ThreatMap.effect. rewrite Hissued.
  rewrite (fetchGeo_after_body JSON_parse ip body data w Hp Hnull).
  rewrite Hlat, Hlon.
  unfold ThreatMap.center, ThreatMap.zoom, ThreatMap.showsMarker.
  cbn [cells events ThreatMap.geoData ThreatMap.loading andb].
  rewrite Hobj. repeat split.
Qed.

(** X19.  The position of an earlier lookup outlives a later one that
    fails.  When the address changes and the lookup for the new address
    fails, the map stays on the position found for the old address, at
    zoom 10 and with its marker, while the new lookup has been sent and
    its failure logged. *)
Theorem failed_lookup_keeps_earlier_position
    (ip1 ip2 body : string) (data : JS.json) (reply : ThreatMap.Reply)
    (w : World ThreatMap.State) :
  ThreatMap.skipsLookup ip1 = false ->
  ThreatMap.skipsLookup ip2 = false ->
  JSON_parse body = JS.Normal data ->
  JS.truthy (JS.member data "latitude") = true ->
  JS.truthy (JS.member data "longitude") = true ->
  ThreatMap.lookupFails JSON_parse reply = true ->
  let w1 :=
    ThreatMap.effect JSON_parse ip1 (ThreatMap.Response true body) w in
  let w2 := ThreatMap.effect JSON_parse ip2 reply w1 in
  ThreatMap.center (cells w2)
  = (JS.member data "latitude", JS.member data "longitude")
  /\ ThreatMap.zoom (cells w2) = 10%Z
  /\ ThreatMap.showsMarker (cells w2) = true
  /\ events w2
     = (events w ++ [Fetch (ThreatMap.lookupURL ip1);
                     Fetch (ThreatMap.lookupURL ip2);
                     ConsoleError "Geo fetch failed"])%list.
Proof.
  intros H1 H2 Hp Hlat Hlon Hfails w1 w2. subst w2 w1.
  assert (Hnull : data <> JS.JNull) by (intros ->; discriminate).
  assert (Hobj : JS.truthy (Some data) = true).
  { destruct data as [| b | q | s | items | props]; try discriminate.
    reflexivity. }
  destruct (acceptReply_throws JSON_parse reply Hfails) as [e He].
  unfold ThreatMap.effect. rewrite H1, H2.
  rewrite (fetchGeo_after_throw JSON_parse ip2 reply e _ He).
  rewrite (fetchGeo_after_body JSON_parse ip1 body data w Hp Hnull).
  rewrite Hlat, Hlon.
  unfold ThreatMap.center, ThreatMap.zoom, ThreatMap.showsMarker.
  cbn [cells events ThreatMap.geoData ThreatMap.loading andb].
  rewrite Hobj, <- app_assoc. repeat split.
Qed.

End MapCoverage.

Section MapExamples.
Import Runtime.
Local Open Scope string_scope.

Lemma amsterdam_parses :
  JSONText.parse Samples.amsterdamBody
  = JS.Normal
      (JS.JObj [("latitude", JS.JNum (5237 # 100));
                ("longitude", JS.JNum (489 # 100));
                ("city", JS.JStr "Amsterdam")]).
Proof. vm_compute. reflexivity. Qed.

Lemma successful_lookup_positions_the_map_witness :
  ThreatMap.zoom
    (cells (ThreatMap.effect JSONText.parse "203.0.113.7"
              (ThreatMap.Response true Samples.amsterdamBody)
              Samples.mountedMap)) = 10%Z
  /\ events
       (ThreatMap.effect JSONText.parse "203.0.113.7"
          (ThreatMap.Response true Samples.amsterdamBody)
          Samples.mountedMap)
     = [Fetch "https://ipapi.co/203.0.113.7/json/"].
Proof.
  destruct (successful_lookup_positions_the_map JSONText.parse
              "203.0.113.7" Samples.amsterdamBody _ Samples.mountedMap
              eq_refl amsterdam_parses eq_refl eq_refl)
    as (_ & Hzoom & _ & _ & Hevents).
  split; [exact Hzoom | exact Hevents].
Defined.

Lemma failed_lookup_keeps_earlier_position_witness :
  ThreatMap.zoom
    (cells (ThreatMap.effect JSONText.parse "198.51.100.9"
              (ThreatMap.Rejected "offline")
              (ThreatMap.effect JSONText.parse "203.0.113.7"
                 (ThreatMap.Response true Samples.amsterdamBody)
                 Samples.mountedMap))) = 10%Z.
Proof.
  destruct (failed_lookup_keeps_earlier_position JSONText.parse
              "203.0.113.7" "198.51.100.9" Samples.amsterdamBody _
              (ThreatMap.Rejected "offline") Samples.mountedMap
              eq_refl eq_refl amsterdam_parses eq_refl eq_refl eq_refl)
    as (_ & Hzoom & _).
  exact Hzoom.
Defined.

End MapExamples.
